(** * Page Ping-pong Throttling (PPT): a shallow embedding of mm/ppt.c

    The development follows the layout of the C sources:
    - [include/linux/ppt.h]: the record-value encoding macros;
    - [mm/ppt.c]: the per-mm tracking store, the three decision-engine
      entry points, the single-entry eviction and the shrinker scan.

    Machine integers are modelled as [Z] with the wrap-around written out:
    [unsigned long] is 64 bits wide (the header documents the 64-bit value
    layout), [atomic_t] is a 32-bit signed counter and [atomic64_t] a 64-bit
    signed counter. *)

From Stdlib Require Import ZArith Lia Bool List.
From stdpp Require Import base gmap fin_maps sorting.

Local Open Scope Z_scope.

(** ** Machine arithmetic *)

Module Machine.

(** [unsigned long] arithmetic is reduced modulo 2^64. *)
Definition ulong (z : Z) : Z := z mod 2 ^ 64.

(** [int] arithmetic wraps in two's complement (the kernel's atomic
    operations are defined to wrap). *)
Definition int_wrap (z : Z) : Z := (z + 2 ^ 31) mod 2 ^ 32 - 2 ^ 31.

(** [s64] arithmetic wraps in two's complement. *)
Definition s64_wrap (z : Z) : Z := (z + 2 ^ 63) mod 2 ^ 64 - 2 ^ 63.

(** [atomic_inc], [atomic_dec] on an [atomic_t]; [atomic64_inc] on an
    [atomic64_t]. *)
Definition atomic_inc (c : Z) : Z := int_wrap (c + 1).
Definition atomic_dec (c : Z) : Z := int_wrap (c - 1).
Definition atomic64_inc (c : Z) : Z := s64_wrap (c + 1).

Definition INT_MIN : Z := - 2 ^ 31.
Definition INT_MAX : Z := 2 ^ 31 - 1.
Definition S64_MAX : Z := 2 ^ 63 - 1.

End Machine.
Export Machine.

(** ** include/linux/ppt.h: the record-value encoding *)

Definition PPT_JIFFIES_BITS : Z := 22.
Definition PPT_JIFFIES_MASK : Z := ulong (Z.shiftl 1 PPT_JIFFIES_BITS - 1).
Definition PPT_PINGPONG_BIT : Z := 23.
Definition PPT_RESERVED_BITS : Z := 40.

(** [#define PPT_GET_JIFFIES(val) (((val) >> 1) & PPT_JIFFIES_MASK)] *)
Definition PPT_GET_JIFFIES (val : Z) : Z :=
  Z.land (Z.shiftr val 1) PPT_JIFFIES_MASK.

(** [#define PPT_GET_PINGPONG(val) (((val) >> PPT_PINGPONG_BIT) & 1)] *)
Definition PPT_GET_PINGPONG (val : Z) : Z :=
  Z.land (Z.shiftr val PPT_PINGPONG_BIT) 1.

(** [#define PPT_MAKE_VALUE(jiffies, pingpong)
       ((((jiffies) & PPT_JIFFIES_MASK) << 1) |
        (((pingpong) & 1) << PPT_PINGPONG_BIT))] *)
Definition PPT_MAKE_VALUE (jiffies pingpong : Z) : Z :=
  ulong (Z.lor (ulong (Z.shiftl (Z.land jiffies PPT_JIFFIES_MASK) 1))
               (Z.shiftl (Z.land pingpong 1) PPT_PINGPONG_BIT)).

(** The elapsed-time expression [(current - stored) & PPT_JIFFIES_MASK],
    written out identically at ppt.c lines 154, 222, 328 and 395; the
    subtraction is an [unsigned long] subtraction. *)
Definition ppt_diff (current_jiffies stored_jiffies : Z) : Z :=
  Z.land (ulong (current_jiffies - stored_jiffies)) PPT_JIFFIES_MASK.

(** ** The XArray interface used by mm/ppt.c

    An XArray maps an [unsigned long] index to a non-NULL entry word; an
    absent index loads as NULL.  Only the operations the engine calls are
    given, with the meaning documented in linux/xarray.h. *)

Module XArray.

Abbreviation xarray := (gmap Z Z).

(** [xa_mk_value(v)] is [(void * )((v << 1) | 1)]. *)
Definition xa_mk_value (v : Z) : Z := Z.lor (ulong (Z.shiftl v 1)) 1.

(** [xa_to_value(entry)] is [(unsigned long)entry >> 1]. *)
Definition xa_to_value (entry : Z) : Z := Z.shiftr entry 1.

(** [xa_is_value(entry)] is [(unsigned long)entry & 1]. *)
Definition xa_is_value (entry : Z) : bool := negb (Z.land entry 1 =? 0).

(** [xa_load] returns the entry at [index], or NULL (0). *)
Definition xa_load (xa : xarray) (index : Z) : Z := default 0 (xa !! index).

(** [__xa_erase] removes the entry at [index], if any. *)
Definition __xa_erase (xa : xarray) (index : Z) : xarray := delete index xa.

(** [__xa_store] with [GFP_ATOMIC] either stores the entry, replacing any
    entry already at [index], or fails with [-ENOMEM] and leaves the array
    as it was; [gfp_ok] says whether the allocation succeeds.  [None] is the
    [xa_err] case. *)
Definition __xa_store (xa : xarray) (index entry : Z) (gfp_ok : bool)
  : option xarray :=
  if gfp_ok then Some (<[index := entry]> xa) else None.

(** [xa_for_each] visits the present entries in ascending index order. *)
Definition index_le (a b : Z * Z) : Prop := a.1 <= b.1.

#[global] Instance index_le_dec (a b : Z * Z) : Decision (index_le a b) :=
  decide (a.1 <= b.1).

Definition xa_for_each (xa : xarray) : list (Z * Z) :=
  merge_sort index_le (map_to_list xa).

End XArray.
Export XArray.

(** ** mm/ppt.c: configuration, statistics and per-mm state *)

(** The tunables at the top of ppt.c. *)
Record ppt_config := {
  ppt_promotion_throttle_duration : Z;
  ppt_promotion_lifetime_expiration : Z;
  ppt_max_entries_per_mm : Z;
  ppt_enabled : bool
}.

(** The six global [atomic64_t] statistics. *)
Record ppt_stats := {
  ppt_stats_promotions_allowed : Z;
  ppt_stats_promotions_throttled : Z;
  ppt_stats_demotions_short_lived : Z;
  ppt_stats_demotions_long_lived : Z;
  ppt_stats_xarray_stores_failed : Z;
  ppt_stats_state_exceptions : Z
}.

(** The PPT fields of [struct mm_struct]: the store pointer (NULL or the
    XArray it points to) and the [atomic_t] entry counter.  The two
    spinlocks and the list node play no role in a sequential run. *)
Record mm_struct := {
  ppt_xarray : option xarray;
  ppt_entry_count : Z
}.

Definition inc_promotions_allowed (st : ppt_stats) : ppt_stats :=
  {| ppt_stats_promotions_allowed := atomic64_inc (ppt_stats_promotions_allowed st);
     ppt_stats_promotions_throttled := ppt_stats_promotions_throttled st;
     ppt_stats_demotions_short_lived := ppt_stats_demotions_short_lived st;
     ppt_stats_demotions_long_lived := ppt_stats_demotions_long_lived st;
     ppt_stats_xarray_stores_failed := ppt_stats_xarray_stores_failed st;
     ppt_stats_state_exceptions := ppt_stats_state_exceptions st |}.

Definition inc_promotions_throttled (st : ppt_stats) : ppt_stats :=
  {| ppt_stats_promotions_allowed := ppt_stats_promotions_allowed st;
     ppt_stats_promotions_throttled := atomic64_inc (ppt_stats_promotions_throttled st);
     ppt_stats_demotions_short_lived := ppt_stats_demotions_short_lived st;
     ppt_stats_demotions_long_lived := ppt_stats_demotions_long_lived st;
     ppt_stats_xarray_stores_failed := ppt_stats_xarray_stores_failed st;
     ppt_stats_state_exceptions := ppt_stats_state_exceptions st |}.

Definition inc_demotions_short_lived (st : ppt_stats) : ppt_stats :=
  {| ppt_stats_promotions_allowed := ppt_stats_promotions_allowed st;
     ppt_stats_promotions_throttled := ppt_stats_promotions_throttled st;
     ppt_stats_demotions_short_lived := atomic64_inc (ppt_stats_demotions_short_lived st);
     ppt_stats_demotions_long_lived := ppt_stats_demotions_long_lived st;
     ppt_stats_xarray_stores_failed := ppt_stats_xarray_stores_failed st;
     ppt_stats_state_exceptions := ppt_stats_state_exceptions st |}.

Definition inc_demotions_long_lived (st : ppt_stats) : ppt_stats :=
  {| ppt_stats_promotions_allowed := ppt_stats_promotions_allowed st;
     ppt_stats_promotions_throttled := ppt_stats_promotions_throttled st;
     ppt_stats_demotions_short_lived := ppt_stats_demotions_short_lived st;
     ppt_stats_demotions_long_lived := atomic64_inc (ppt_stats_demotions_long_lived st);
     ppt_stats_xarray_stores_failed := ppt_stats_xarray_stores_failed st;
     ppt_stats_state_exceptions := ppt_stats_state_exceptions st |}.

Definition inc_xarray_stores_failed (st : ppt_stats) : ppt_stats :=
  {| ppt_stats_promotions_allowed := ppt_stats_promotions_allowed st;
     ppt_stats_promotions_throttled := ppt_stats_promotions_throttled st;
     ppt_stats_demotions_short_lived := ppt_stats_demotions_short_lived st;
     ppt_stats_demotions_long_lived := ppt_stats_demotions_long_lived st;
     ppt_stats_xarray_stores_failed := atomic64_inc (ppt_stats_xarray_stores_failed st);
     ppt_stats_state_exceptions := ppt_stats_state_exceptions st |}.

Definition inc_state_exceptions (st : ppt_stats) : ppt_stats :=
  {| ppt_stats_promotions_allowed := ppt_stats_promotions_allowed st;
     ppt_stats_promotions_throttled := ppt_stats_promotions_throttled st;
     ppt_stats_demotions_short_lived := ppt_stats_demotions_short_lived st;
     ppt_stats_demotions_long_lived := ppt_stats_demotions_long_lived st;
     ppt_stats_xarray_stores_failed := ppt_stats_xarray_stores_failed st;
     ppt_stats_state_exceptions := atomic64_inc (ppt_stats_state_exceptions st) |}.

(** The statistics [st] with the given amounts added to the six counters,
    in the order of their declaration; used to state what a call counts. *)
Definition stats_delta (st : ppt_stats) (allowed throttled short_lived
    long_lived failed exceptions : Z) : ppt_stats :=
  {| ppt_stats_promotions_allowed := ppt_stats_promotions_allowed st + allowed;
     ppt_stats_promotions_throttled := ppt_stats_promotions_throttled st + throttled;
     ppt_stats_demotions_short_lived := ppt_stats_demotions_short_lived st + short_lived;
     ppt_stats_demotions_long_lived := ppt_stats_demotions_long_lived st + long_lived;
     ppt_stats_xarray_stores_failed := ppt_stats_xarray_stores_failed st + failed;
     ppt_stats_state_exceptions := ppt_stats_state_exceptions st + exceptions |}.

(** Every counter is a non-negative [s64] that one more increment does not
    overflow. *)
Definition stats_in_range (st : ppt_stats) : Prop :=
  0 <= ppt_stats_promotions_allowed st < S64_MAX /\
  0 <= ppt_stats_promotions_throttled st < S64_MAX /\
  0 <= ppt_stats_demotions_short_lived st < S64_MAX /\
  0 <= ppt_stats_demotions_long_lived st < S64_MAX /\
  0 <= ppt_stats_xarray_stores_failed st < S64_MAX /\
  0 <= ppt_stats_state_exceptions st < S64_MAX.

(** A store pointer together with the counter, as one [mm_struct]. *)
Definition mk_mm (xa : xarray) (count : Z) : mm_struct :=
  {| ppt_xarray := Some xa; ppt_entry_count := count |}.

(** [MAX_JIFFY_OFFSET] is [(LONG_MAX >> 1) - 1] (linux/jiffies.h). *)
Definition MAX_JIFFY_OFFSET : Z := Z.shiftr (2 ^ 63 - 1) 1 - 1.

(** The kernel's [msecs_to_jiffies] (linux/jiffies.h) for a tick rate [hz]
    that divides 1000: the argument is taken as an [unsigned int], a value
    that is negative as an [int] gives [MAX_JIFFY_OFFSET], any other is
    rounded up to whole ticks.  It instantiates the conversion in the
    examples. *)
Definition msecs_to_jiffies_hz (hz m : Z) : Z :=
  let m := m mod 2 ^ 32 in
  if 2 ^ 31 <=? m then MAX_JIFFY_OFFSET
  else (m + (1000 / hz) - 1) / (1000 / hz).

Section PPT.

(** The host kernel's millisecond-to-tick conversion (linux/jiffies.h) and
    the NUMA-fault reason flag the engine reports; neither is defined in
    mm/ppt.c. *)
Variable msecs_to_jiffies : Z -> Z.
Variable TNF_THROTTLED : Z.

(** *** ppt_mm_init

    [kmalloc_ok] says whether the allocation of the XArray succeeds. *)
Definition ppt_mm_init (kmalloc_ok : bool) (mm : mm_struct) : mm_struct :=
  if kmalloc_ok then
    {| ppt_xarray := Some ∅; ppt_entry_count := 0 |}
  else
    {| ppt_xarray := None; ppt_entry_count := ppt_entry_count mm |}.

(** *** ppt_mm_destroy *)
Definition ppt_mm_destroy (mm : mm_struct) : mm_struct :=
  match ppt_xarray mm with
  | None => mm
  | Some _ => {| ppt_xarray := None; ppt_entry_count := ppt_entry_count mm |}
  end.

(** *** ppt_mm_fork *)
Definition ppt_mm_fork (kmalloc_ok : bool) (oldmm newmm : mm_struct)
  : mm_struct :=
  ppt_mm_init kmalloc_ok newmm.

(** *** ppt_should_throttle_promotion

    [jiffies] is the clock sample read on entry and [pfn] is
    [page_to_pfn(page)].  The result is the returned flag, the updated
    [mm], the updated statistics and the updated [*out_flags]. *)
Definition ppt_should_throttle_promotion (cfg : ppt_config) (jiffies : Z)
    (mm : mm_struct) (pfn : Z) (st : ppt_stats) (out_flags : Z)
  : bool * mm_struct * ppt_stats * Z :=
  let current_jiffies := jiffies in
  if negb (ppt_enabled cfg) then (false, mm, st, out_flags) else
  match ppt_xarray mm with
  | None => (false, mm, st, out_flags)
  | Some xa =>
    let entry := xa_load xa pfn in
    if negb (entry =? 0) && xa_is_value entry then
      let value := xa_to_value entry in
      let stored_jiffies := PPT_GET_JIFFIES value in
      let pg_pingpong := PPT_GET_PINGPONG value in
      let current_masked := Z.land current_jiffies PPT_JIFFIES_MASK in
      let diff := ppt_diff current_masked stored_jiffies in
      if pg_pingpong =? 0 then
        (false,
         mk_mm (__xa_erase xa pfn) (atomic_dec (ppt_entry_count mm)),
         inc_state_exceptions st, out_flags)
      else if diff <? msecs_to_jiffies (ppt_promotion_throttle_duration cfg) then
        (true, mm, inc_promotions_throttled st, Z.lor out_flags TNF_THROTTLED)
      else
        (false,
         mk_mm (__xa_erase xa pfn) (atomic_dec (ppt_entry_count mm)),
         inc_promotions_allowed st, out_flags)
    else
      (false, mm, inc_promotions_allowed st, out_flags)
  end.

(** *** ppt_evict_expired_entry

    The body of the [xa_for_each] loop, over the entries still to visit;
    the first expired entry is erased and the loop left. *)
Fixpoint evict_loop (cfg : ppt_config) (current_jiffies : Z)
    (entries : list (Z * Z)) (xa : xarray) (count : Z) : xarray * Z :=
  match entries with
  | [] => (xa, count)
  | (index, entry) :: rest =>
    if xa_is_value entry then
      let value := xa_to_value entry in
      let stored_jiffies := PPT_GET_JIFFIES value in
      let pg_pingpong := PPT_GET_PINGPONG value in
      let diff := ppt_diff current_jiffies stored_jiffies in
      let threshold :=
        if pg_pingpong =? 0
        then msecs_to_jiffies (ppt_promotion_lifetime_expiration cfg)
        else msecs_to_jiffies (ppt_promotion_throttle_duration cfg) in
      if threshold <=? diff then
        (__xa_erase xa index, atomic_dec count)
      else evict_loop cfg current_jiffies rest xa count
    else evict_loop cfg current_jiffies rest xa count
  end.

Definition ppt_evict_expired_entry (cfg : ppt_config) (jiffies : Z)
    (mm : mm_struct) : mm_struct :=
  let current_jiffies := Z.land jiffies PPT_JIFFIES_MASK in
  match ppt_xarray mm with
  | None => mm
  | Some xa =>
    let '(xa', count') :=
      evict_loop cfg current_jiffies (xa_for_each xa) xa (ppt_entry_count mm) in
    mk_mm xa' count'
  end.

(** *** ppt_track_promotion

    [jiffies] is the clock sample read on entry, which stamps the record;
    [jiffies_evict] is the sample [ppt_evict_expired_entry] reads for itself
    when it is called.  [gfp_ok] says whether the [GFP_ATOMIC] store
    succeeds. *)
Definition ppt_track_promotion (cfg : ppt_config) (jiffies jiffies_evict : Z)
    (gfp_ok : bool) (mm : mm_struct) (old_pfn new_pfn : Z) (st : ppt_stats)
  : mm_struct * ppt_stats :=
  let current_jiffies := Z.land jiffies PPT_JIFFIES_MASK in
  let value := PPT_MAKE_VALUE current_jiffies 0 in
  let xa_value := xa_mk_value value in
  if negb (ppt_enabled cfg) then (mm, st) else
  let mm :=
    if ppt_max_entries_per_mm cfg <=? ulong (ppt_entry_count mm)
    then ppt_evict_expired_entry cfg jiffies_evict mm
    else mm in
  match ppt_xarray mm with
  | None => (mm, st)
  | Some xa =>
    let xa := __xa_erase xa old_pfn in
    match __xa_store xa new_pfn xa_value gfp_ok with
    | None =>
      (mk_mm xa (ppt_entry_count mm), inc_xarray_stores_failed st)
    | Some xa' =>
      (mk_mm xa' (atomic_inc (ppt_entry_count mm)), st)
    end
  end.

(** *** ppt_track_demotion *)
Definition ppt_track_demotion (cfg : ppt_config) (jiffies : Z)
    (gfp_ok : bool) (mm : mm_struct) (old_pfn new_pfn : Z) (st : ppt_stats)
  : mm_struct * ppt_stats :=
  let current_jiffies := Z.land jiffies PPT_JIFFIES_MASK in
  if negb (ppt_enabled cfg) then (mm, st) else
  match ppt_xarray mm with
  | None => (mm, st)
  | Some xa =>
    let entry := xa_load xa old_pfn in
    if negb (entry =? 0) && xa_is_value entry then
      let value := xa_to_value entry in
      let stored_jiffies := PPT_GET_JIFFIES value in
      let diff := ppt_diff current_jiffies stored_jiffies in
      if diff <? msecs_to_jiffies (ppt_promotion_lifetime_expiration cfg) then
        let new_value := PPT_MAKE_VALUE current_jiffies 1 in
        let xa_value := xa_mk_value new_value in
        let xa := __xa_erase xa old_pfn in
        match __xa_store xa new_pfn xa_value gfp_ok with
        | None =>
          (mk_mm xa (atomic_dec (ppt_entry_count mm)),
           inc_xarray_stores_failed st)
        | Some xa' =>
          (mk_mm xa' (ppt_entry_count mm), inc_demotions_short_lived st)
        end
      else
        (mk_mm (__xa_erase xa old_pfn) (atomic_dec (ppt_entry_count mm)),
         inc_demotions_long_lived st)
    else (mm, st)
  end.

(** *** ppt_shrink_mm_xarray

    The loop body over the entries still to visit, then the function; the
    result carries the number of entries freed. *)
Fixpoint shrink_loop (cfg : ppt_config) (current_jiffies nr_to_scan : Z)
    (entries : list (Z * Z)) (xa : xarray) (count freed : Z)
  : xarray * Z * Z :=
  match entries with
  | [] => (xa, count, freed)
  | (index, entry) :: rest =>
    if nr_to_scan <=? freed then (xa, count, freed)
    else if xa_is_value entry then
      let value := xa_to_value entry in
      let stored_jiffies := PPT_GET_JIFFIES value in
      let pg_pingpong := PPT_GET_PINGPONG value in
      let diff := ppt_diff current_jiffies stored_jiffies in
      let threshold :=
        if pg_pingpong =? 0
        then msecs_to_jiffies (ppt_promotion_lifetime_expiration cfg)
        else msecs_to_jiffies (ppt_promotion_throttle_duration cfg) in
      if threshold <=? diff then
        shrink_loop cfg current_jiffies nr_to_scan rest
          (__xa_erase xa index) (atomic_dec count) (ulong (freed + 1))
      else shrink_loop cfg current_jiffies nr_to_scan rest xa count freed
    else shrink_loop cfg current_jiffies nr_to_scan rest xa count freed
  end.

Definition ppt_shrink_mm_xarray (cfg : ppt_config) (jiffies : Z)
    (mm : mm_struct) (nr_to_scan : Z) : mm_struct * Z :=
  let current_jiffies := Z.land jiffies PPT_JIFFIES_MASK in
  match ppt_xarray mm with
  | None => (mm, 0)
  | Some xa =>
    let '(xa', count', freed) :=
      shrink_loop cfg current_jiffies nr_to_scan (xa_for_each xa) xa
        (ppt_entry_count mm) 0 in
    (mk_mm xa' count', freed)
  end.

(** *** ppt_mm_entry_count (ppt.h) *)
Definition ppt_mm_entry_count (mm : mm_struct) : Z :=
  match ppt_xarray mm with
  | Some _ => ppt_entry_count mm
  | None => 0
  end.

(** ** Several owners

    The engine's functions receive a pointer to one [mm_struct] and update
    the global statistics.  A system is the collection of live
    [mm_struct]s, keyed by address, with the statistics; a call on an
    address that holds no [mm_struct] is not a call the kernel makes and
    leaves the system as it is. *)
Record ppt_system := {
  sys_mm : gmap Z mm_struct;
  sys_stats : ppt_stats
}.

Definition sys_should_throttle_promotion (cfg : ppt_config) (jiffies : Z)
    (sys : ppt_system) (mm_addr pfn : Z) (out_flags : Z)
  : bool * ppt_system * Z :=
  match sys_mm sys !! mm_addr with
  | None => (false, sys, out_flags)
  | Some mm =>
    let '(throttle, mm', st', flags') :=
      ppt_should_throttle_promotion cfg jiffies mm pfn (sys_stats sys)
        out_flags in
    (throttle,
     {| sys_mm := <[mm_addr := mm']> (sys_mm sys); sys_stats := st' |},
     flags')
  end.

Definition sys_track_promotion (cfg : ppt_config)
    (jiffies jiffies_evict : Z) (gfp_ok : bool) (sys : ppt_system) (mm_addr old_pfn new_pfn : Z)
  : ppt_system :=
  match sys_mm sys !! mm_addr with
  | None => sys
  | Some mm =>
    let '(mm', st') :=
      ppt_track_promotion cfg jiffies jiffies_evict gfp_ok mm old_pfn
        new_pfn (sys_stats sys) in
    {| sys_mm := <[mm_addr := mm']> (sys_mm sys); sys_stats := st' |}
  end.

Definition sys_track_demotion (cfg : ppt_config) (jiffies : Z)
    (gfp_ok : bool) (sys : ppt_system) (mm_addr old_pfn new_pfn : Z)
  : ppt_system :=
  match sys_mm sys !! mm_addr with
  | None => sys
  | Some mm =>
    let '(mm', st') :=
      ppt_track_demotion cfg jiffies gfp_ok mm old_pfn new_pfn
        (sys_stats sys) in
    {| sys_mm := <[mm_addr := mm']> (sys_mm sys); sys_stats := st' |}
  end.






(** The number of records present in a store ([0] when the pointer is
    NULL). *)
Definition mm_records (mm : mm_struct) : Z :=
  match ppt_xarray mm with
  | Some xa => Z.of_nat (size xa)
  | None => 0
  end.

(** An entry is expired at clock [jiffies]: the test both eviction scans
    apply to the entry they visit. *)
Definition entry_expired (cfg : ppt_config) (jiffies : Z) (entry : Z) : bool :=
  xa_is_value entry &&
  ((if PPT_GET_PINGPONG (xa_to_value entry) =? 0
    then msecs_to_jiffies (ppt_promotion_lifetime_expiration cfg)
    else msecs_to_jiffies (ppt_promotion_throttle_duration cfg))
   <=? ppt_diff (Z.land jiffies PPT_JIFFIES_MASK)
                (PPT_GET_JIFFIES (xa_to_value entry))).

(** ** Example inputs

    A configuration within the bounds the settings surface accepts, empty
    statistics, a freshly initialised owner, and [n] promotions at one
    clock value into [n] distinct fast-tier frames. *)
Definition example_cfg (enabled : bool) : ppt_config :=
  {| ppt_promotion_throttle_duration := 5000;
     ppt_promotion_lifetime_expiration := 5000;
     ppt_max_entries_per_mm := 1000;
     ppt_enabled := enabled |}.

Definition example_stats : ppt_stats :=
  {| ppt_stats_promotions_allowed := 0;
     ppt_stats_promotions_throttled := 0;
     ppt_stats_demotions_short_lived := 0;
     ppt_stats_demotions_long_lived := 0;
     ppt_stats_xarray_stores_failed := 0;
     ppt_stats_state_exceptions := 0 |}.

Definition example_mm : mm_struct := ppt_mm_init true (Build_mm_struct None 0).

(** One owner holding the single record [(timestamp, flag)] at [pfn]. *)
Definition example_mm_with (pfn timestamp flag : Z) : mm_struct :=
  mk_mm {[ pfn := xa_mk_value (PPT_MAKE_VALUE timestamp flag) ]} 1.


Definition example_TNF_THROTTLED : Z := 32.

(** Two owners: one with a throttle-eligible record, one empty. *)
Definition example_sys : ppt_system :=
  {| sys_mm := {[ 1 := example_mm_with 10 0 1; 2 := example_mm ]};
     sys_stats := example_stats |}.

(** ** mm/ppt.c: the shrinker and the statistics snapshot

    The registry [ppt_mm_list_head] is the list of the registered
    [mm_struct]s in list order; the scan updates them in place. *)

(** *** ppt_shrinker_count *)
Definition ppt_shrinker_count (ppt_mm_list : list mm_struct) : Z :=
  fold_left (fun total mm => ulong (total + ulong (ppt_entry_count mm)))
            ppt_mm_list 0.

(** *** ppt_shrinker_scan

    The body of [list_for_each_entry] over the owners still to visit, with
    the number freed so far. *)
Fixpoint shrinker_scan_loop (cfg : ppt_config) (jiffies to_scan : Z)
    (ppt_mm_list : list mm_struct) (freed : Z) : list mm_struct * Z :=
  match ppt_mm_list with
  | [] => ([], freed)
  | mm :: rest =>
    if to_scan <=? freed then (mm :: rest, freed)
    else
      let '(mm', n) :=
        ppt_shrink_mm_xarray cfg jiffies mm (ulong (to_scan - freed)) in
      let '(rest', freed') :=
        shrinker_scan_loop cfg jiffies to_scan rest (ulong (freed + n)) in
      (mm' :: rest', freed')
  end.

Definition ppt_shrinker_scan (cfg : ppt_config) (jiffies : Z)
    (ppt_mm_list : list mm_struct) (nr_to_scan : Z) : list mm_struct * Z :=
  let to_scan := nr_to_scan in
  shrinker_scan_loop cfg jiffies to_scan ppt_mm_list 0.

(** *** ppt_get_stats

    Each [atomic64_read] is stored into an [unsigned long] field. *)
Definition ppt_get_stats (st : ppt_stats) : ppt_stats :=
  {| ppt_stats_promotions_allowed := ulong (ppt_stats_promotions_allowed st);
     ppt_stats_promotions_throttled := ulong (ppt_stats_promotions_throttled st);
     ppt_stats_demotions_short_lived := ulong (ppt_stats_demotions_short_lived st);
     ppt_stats_demotions_long_lived := ulong (ppt_stats_demotions_long_lived st);
     ppt_stats_xarray_stores_failed := ulong (ppt_stats_xarray_stores_failed st);
     ppt_stats_state_exceptions := ulong (ppt_stats_state_exceptions st) |}.

(** ** mm/ppt_sysfs.c: the settings surface

    [kstrtoint] and [kstrtoul] (linux/kstrtox.h) either parse the buffer
    into a value or return a negative error code; the store functions
    receive that outcome. *)
Inductive kstrto_result :=
| Parsed (val : Z)
| Parse_failed (ret : Z).

Definition EINVAL : Z := 22.

Definition set_enabled (cfg : ppt_config) (b : bool) : ppt_config :=
  {| ppt_promotion_throttle_duration := ppt_promotion_throttle_duration cfg;
     ppt_promotion_lifetime_expiration := ppt_promotion_lifetime_expiration cfg;
     ppt_max_entries_per_mm := ppt_max_entries_per_mm cfg;
     ppt_enabled := b |}.

Definition set_promotion_throttle_duration (cfg : ppt_config) (val : Z)
  : ppt_config :=
  {| ppt_promotion_throttle_duration := val;
     ppt_promotion_lifetime_expiration := ppt_promotion_lifetime_expiration cfg;
     ppt_max_entries_per_mm := ppt_max_entries_per_mm cfg;
     ppt_enabled := ppt_enabled cfg |}.

Definition set_promotion_lifetime_expiration (cfg : ppt_config) (val : Z)
  : ppt_config :=
  {| ppt_promotion_throttle_duration := ppt_promotion_throttle_duration cfg;
     ppt_promotion_lifetime_expiration := val;
     ppt_max_entries_per_mm := ppt_max_entries_per_mm cfg;
     ppt_enabled := ppt_enabled cfg |}.

Definition set_max_entries_per_mm (cfg : ppt_config) (val : Z) : ppt_config :=
  {| ppt_promotion_throttle_duration := ppt_promotion_throttle_duration cfg;
     ppt_promotion_lifetime_expiration := ppt_promotion_lifetime_expiration cfg;
     ppt_max_entries_per_mm := val;
     ppt_enabled := ppt_enabled cfg |}.

(** *** enabled_store: the updated tunables and the returned [ssize_t]. *)
Definition enabled_store (cfg : ppt_config) (parse : kstrto_result)
    (count : Z) : ppt_config * Z :=
  match parse with
  | Parse_failed ret => (cfg, ret)
  | Parsed val =>
    if (val <? 0) || (1 <? val) then (cfg, - EINVAL)
    else (set_enabled cfg (negb (val =? 0)), count)
  end.

(** *** promotion_throttle_duration_store *)
Definition promotion_throttle_duration_store (cfg : ppt_config)
    (parse : kstrto_result) (count : Z) : ppt_config * Z :=
  match parse with
  | Parse_failed ret => (cfg, ret)
  | Parsed val =>
    if (val <? 1) || (600000 <? val) then (cfg, - EINVAL)
    else (set_promotion_throttle_duration cfg val, count)
  end.

(** *** promotion_lifetime_expiration_store *)
Definition promotion_lifetime_expiration_store (cfg : ppt_config)
    (parse : kstrto_result) (count : Z) : ppt_config * Z :=
  match parse with
  | Parse_failed ret => (cfg, ret)
  | Parsed val =>
    if (val <? 1) || (600000 <? val) then (cfg, - EINVAL)
    else (set_promotion_lifetime_expiration cfg val, count)
  end.

(** *** max_entries_per_mm_store *)
Definition max_entries_per_mm_store (cfg : ppt_config)
    (parse : kstrto_result) (count : Z) : ppt_config * Z :=
  match parse with
  | Parse_failed ret => (cfg, ret)
  | Parsed val =>
    if (val <? 1000) || (10000000 <? val) then (cfg, - EINVAL)
    else (set_max_entries_per_mm cfg val, count)
  end.

(** The initial values of the tunables in mm/ppt.c. *)
Definition ppt_config_boot : ppt_config :=
  {| ppt_promotion_throttle_duration := 5000;
     ppt_promotion_lifetime_expiration := 5000;
     ppt_max_entries_per_mm := 1000000;
     ppt_enabled := false |}.

(** A write to one of the four attributes of /sys/kernel/mm/ppt. *)
Inductive sysfs_store :=
| Store_enabled (parse : kstrto_result) (count : Z)
| Store_promotion_throttle_duration (parse : kstrto_result) (count : Z)
| Store_promotion_lifetime_expiration (parse : kstrto_result) (count : Z)
| Store_max_entries_per_mm (parse : kstrto_result) (count : Z).

Definition sysfs_store_step (cfg : ppt_config) (w : sysfs_store)
  : ppt_config * Z :=
  match w with
  | Store_enabled parse count => enabled_store cfg parse count
  | Store_promotion_throttle_duration parse count =>
    promotion_throttle_duration_store cfg parse count
  | Store_promotion_lifetime_expiration parse count =>
    promotion_lifetime_expiration_store cfg parse count
  | Store_max_entries_per_mm parse count =>
    max_entries_per_mm_store cfg parse count
  end.

Definition sysfs_stores_run (ws : list sysfs_store) (cfg : ppt_config)
  : ppt_config :=
  fold_left (fun c w => (sysfs_store_step c w).1) ws cfg.

(** The bounds the store functions enforce. *)
Definition config_in_bounds (cfg : ppt_config) : Prop :=
  1 <= ppt_promotion_throttle_duration cfg <= 600000 /\
  1 <= ppt_promotion_lifetime_expiration cfg <= 600000 /\
  1000 <= ppt_max_entries_per_mm cfg <= 10000000.

(** ** Stores of encoded records, and runs of all the operations *)

(** The record of the page at [index], if the store is live and holds
    one. *)
Definition mm_lookup (mm : mm_struct) (index : Z) : option Z :=
  match ppt_xarray mm with
  | Some xa => xa !! index
  | None => None
  end.

(** An entry the engine writes: a value entry holding an encoded record. *)
Definition is_record (entry : Z) : Prop :=
  exists timestamp flag, (flag = 0 \/ flag = 1) /\
    entry = xa_mk_value (PPT_MAKE_VALUE timestamp flag).

Definition xa_records_only (xa : xarray) : Prop :=
  forall k e, xa !! k = Some e -> is_record e.

(** The store is live, holds only encoded records, and the counter is at
    least the number of records and fits an [int]. *)
Definition mm_tracked (mm : mm_struct) : Prop :=
  exists xa, ppt_xarray mm = Some xa /\ xa_records_only xa /\
    Z.of_nat (size xa) <= ppt_entry_count mm <= INT_MAX.

(** The counter covers the records, for a live store or a NULL one. *)
Definition mm_counted (mm : mm_struct) : Prop :=
  0 <= mm_records mm <= ppt_entry_count mm /\ ppt_entry_count mm <= INT_MAX.

Inductive ppt_op :=
| Op_check (jiffies pfn : Z)
| Op_promote (jiffies jiffies_evict : Z) (gfp_ok : bool)
    (old_pfn new_pfn : Z)
| Op_demote (jiffies : Z) (gfp_ok : bool) (old_pfn new_pfn : Z)
| Op_shrink (jiffies nr_to_scan : Z).

Definition ppt_op_step (cfg : ppt_config) (s : mm_struct * ppt_stats)
    (op : ppt_op) : mm_struct * ppt_stats :=
  match op with
  | Op_check jiffies pfn =>
    let r := ppt_should_throttle_promotion cfg jiffies s.1 pfn s.2 0 in
    (r.1.1.2, r.1.2)
  | Op_promote jiffies jiffies_evict gfp_ok old_pfn new_pfn =>
    ppt_track_promotion cfg jiffies jiffies_evict gfp_ok s.1 old_pfn new_pfn
      s.2
  | Op_demote jiffies gfp_ok old_pfn new_pfn =>
    ppt_track_demotion cfg jiffies gfp_ok s.1 old_pfn new_pfn s.2
  | Op_shrink jiffies nr_to_scan =>
    ((ppt_shrink_mm_xarray cfg jiffies s.1 nr_to_scan).1, s.2)
  end.

Definition ppt_ops_run (cfg : ppt_config) (ops : list ppt_op)
    (s : mm_struct * ppt_stats) : mm_struct * ppt_stats :=
  fold_left (ppt_op_step cfg) ops s.

Definition op_is_check (op : ppt_op) : bool :=
  match op with Op_check _ _ => true | _ => false end.

Definition op_is_promote (op : ppt_op) : bool :=
  match op with Op_promote _ _ _ _ _ => true | _ => false end.

Definition count_ops (p : ppt_op -> bool) (ops : list ppt_op) : Z :=
  Z.of_nat (length (List.filter p ops)).

(** The entry counters, and the records, of all registered owners. *)
Definition count_total (ppt_mm_list : list mm_struct) : Z :=
  fold_right (fun mm total => ppt_entry_count mm + total) 0 ppt_mm_list.

Definition records_total (ppt_mm_list : list mm_struct) : Z :=
  fold_right (fun mm total => mm_records mm + total) 0 ppt_mm_list.

(** The three counters a throttle check can raise. *)
Definition checks_counted (st : ppt_stats) : Z :=
  ppt_stats_promotions_allowed st + ppt_stats_promotions_throttled st
  + ppt_stats_state_exceptions st.

(** ** Facts about the encoding *)

Lemma PPT_JIFFIES_MASK_ones : PPT_JIFFIES_MASK = Z.ones 22.
Proof. reflexivity. Qed.

Lemma land_mask_mod (z : Z) : Z.land z PPT_JIFFIES_MASK = z mod 2 ^ 22.
Proof. rewrite PPT_JIFFIES_MASK_ones. apply Z.land_ones. lia. Qed.

Lemma land_mask_range (z : Z) : 0 <= Z.land z PPT_JIFFIES_MASK < 2 ^ 22.
Proof. rewrite land_mask_mod. apply Z.mod_pos_bound. lia. Qed.

Lemma land_1_mod (z : Z) : Z.land z 1 = z mod 2.
Proof. change 1 with (Z.ones 1) at 1. rewrite Z.land_ones by lia. reflexivity. Qed.

Lemma ulong_small (z : Z) : 0 <= z < 2 ^ 64 -> ulong z = z.
Proof. intros H. unfold ulong. apply Z.mod_small. exact H. Qed.

Lemma ulong_mod_mask (z : Z) : (ulong z) mod 2 ^ 22 = z mod 2 ^ 22.
Proof.
  unfold ulong.
  change (2 ^ 64) with (2 ^ 22 * 2 ^ 42).
  rewrite Z.rem_mul_r by lia.
  rewrite Z.mul_comm, Z.mod_add by lia.
  apply Z.mod_mod. lia.
Qed.

(** Disjoint bit fields: the shifted timestamp occupies bits 1..22 and the
    flag occupies bit 23, so the bitwise or is a sum. *)
Lemma make_value_sum (j p : Z) :
  PPT_MAKE_VALUE j p = 2 * (j mod 2 ^ 22) + 2 ^ 23 * (p mod 2).
Proof.
  unfold PPT_MAKE_VALUE, PPT_PINGPONG_BIT.
  rewrite land_mask_mod, land_1_mod.
  rewrite !Z.shiftl_mul_pow2 by lia.
  pose proof (Z.mod_pos_bound j (2 ^ 22) ltac:(lia)) as Hj.
  pose proof (Z.mod_pos_bound p 2 ltac:(lia)) as Hp.
  rewrite (ulong_small (j mod 2 ^ 22 * 2 ^ 1)) by lia.
  assert (Hdisj : Z.land (j mod 2 ^ 22 * 2 ^ 1) (p mod 2 * 2 ^ 23) = 0).
  { apply Z.bits_inj'. intros n Hn.
    rewrite Z.land_spec, Z.bits_0.
    rewrite <- !Z.shiftl_mul_pow2 by lia.
    rewrite !Z.shiftl_spec by lia.
    destruct (Z.ltb_spec n 23).
    - rewrite (Z.testbit_neg_r (p mod 2)) by lia. apply andb_false_r.
    - replace (Z.testbit (j mod 2 ^ 22) (n - 1)) with false; [reflexivity|].
      symmetry. apply Z.mod_pow2_bits_high. lia. }
  rewrite <- Z.add_nocarry_lor by exact Hdisj.
  rewrite ulong_small by lia. lia.
Qed.

Lemma get_jiffies_make_value (j p : Z) :
  PPT_GET_JIFFIES (PPT_MAKE_VALUE j p) = j mod 2 ^ 22.
Proof.
  unfold PPT_GET_JIFFIES.
  rewrite land_mask_mod, make_value_sum, Z.shiftr_div_pow2 by lia.
  pose proof (Z.mod_pos_bound j (2 ^ 22) ltac:(lia)) as Hj.
  replace (2 * (j mod 2 ^ 22) + 2 ^ 23 * (p mod 2))
    with ((j mod 2 ^ 22 + 2 ^ 22 * (p mod 2)) * 2 ^ 1) by lia.
  rewrite Z.div_mul by lia.
  rewrite Z.mul_comm, Z.mod_add by lia.
  apply Z.mod_small. exact Hj.
Qed.

Lemma get_pingpong_make_value (j p : Z) :
  PPT_GET_PINGPONG (PPT_MAKE_VALUE j p) = p mod 2.
Proof.
  unfold PPT_GET_PINGPONG, PPT_PINGPONG_BIT.
  rewrite land_1_mod, make_value_sum, Z.shiftr_div_pow2 by lia.
  pose proof (Z.mod_pos_bound j (2 ^ 22) ltac:(lia)) as Hj.
  pose proof (Z.mod_pos_bound p 2 ltac:(lia)) as Hp.
  rewrite (Z.mul_comm (2 ^ 23)), Z.div_add by lia.
  rewrite (Z.div_small (2 * (j mod 2 ^ 22))) by lia.
  simpl. apply Z.mod_small. exact Hp.
Qed.

Lemma make_value_range (j p : Z) : 0 <= PPT_MAKE_VALUE j p < 2 ^ 24.
Proof.
  rewrite make_value_sum.
  pose proof (Z.mod_pos_bound j (2 ^ 22) ltac:(lia)).
  pose proof (Z.mod_pos_bound p 2 ltac:(lia)).
  lia.
Qed.

Lemma ppt_diff_mod (c s : Z) : ppt_diff c s = (c - s) mod 2 ^ 22.
Proof. unfold ppt_diff. rewrite land_mask_mod. apply ulong_mod_mask. Qed.

Lemma ppt_diff_masked (jiffies s : Z) :
  ppt_diff (Z.land jiffies PPT_JIFFIES_MASK) s = (jiffies - s) mod 2 ^ 22.
Proof.
  rewrite ppt_diff_mod, land_mask_mod. apply Zminus_mod_idemp_l.
Qed.

(** ** Facts about the machine arithmetic and the XArray entries *)

Lemma atomic_inc_in_range (c : Z) : INT_MIN <= c < INT_MAX -> atomic_inc c = c + 1.
Proof.
  unfold atomic_inc, int_wrap, INT_MIN, INT_MAX. intros H.
  rewrite Z.mod_small by lia. lia.
Qed.

Lemma atomic_dec_in_range (c : Z) : INT_MIN < c <= INT_MAX -> atomic_dec c = c - 1.
Proof.
  unfold atomic_dec, int_wrap, INT_MIN, INT_MAX. intros H.
  rewrite Z.mod_small by lia. lia.
Qed.

Lemma atomic64_inc_in_range (c : Z) : 0 <= c < S64_MAX -> atomic64_inc c = c + 1.
Proof.
  unfold atomic64_inc, s64_wrap, S64_MAX. intros H.
  rewrite Z.mod_small by lia. lia.
Qed.

Lemma xa_mk_value_sum (v : Z) : 0 <= v < 2 ^ 63 -> xa_mk_value v = 2 * v + 1.
Proof.
  intros Hv. unfold xa_mk_value.
  rewrite Z.shiftl_mul_pow2 by lia.
  rewrite ulong_small by lia.
  rewrite <- Z.add_nocarry_lor.
  - lia.
  - apply Z.bits_inj'. intros n Hn.
    rewrite Z.land_spec, Z.bits_0.
    destruct (Z.eq_dec n 0) as [->|Hne].
    + rewrite Z.mul_comm. change (2 ^ 1) with 2.
      rewrite Z.testbit_even_0. reflexivity.
    + change 1 with (Z.ones 1) at 2.
      rewrite Z.ones_spec_high by lia. apply andb_false_r.
Qed.

Lemma xa_to_value_mk_value (v : Z) :
  0 <= v < 2 ^ 63 -> xa_to_value (xa_mk_value v) = v.
Proof.
  intros Hv. unfold xa_to_value.
  rewrite xa_mk_value_sum, Z.shiftr_div_pow2 by lia.
  change (2 ^ 1) with 2.
  rewrite Z.add_comm, Z.mul_comm, Z.div_add by lia.
  reflexivity.
Qed.

Lemma xa_is_value_mk_value (v : Z) :
  0 <= v < 2 ^ 63 -> xa_is_value (xa_mk_value v) = true.
Proof.
  intros Hv. unfold xa_is_value.
  rewrite xa_mk_value_sum, land_1_mod by lia.
  rewrite Z.add_comm, Z.mul_comm, Z.mod_add by lia.
  reflexivity.
Qed.

Lemma xa_mk_value_nonzero (v : Z) :
  0 <= v < 2 ^ 63 -> (xa_mk_value v =? 0) = false.
Proof. intros Hv. rewrite xa_mk_value_sum by lia. apply Z.eqb_neq. lia. Qed.

Lemma xa_load_record (xa : xarray) (index v : Z) :
  0 <= v < 2 ^ 63 ->
  xa !! index = Some (xa_mk_value v) ->
  negb (xa_load xa index =? 0) && xa_is_value (xa_load xa index) = true
  /\ xa_to_value (xa_load xa index) = v.
Proof.
  intros Hv Hl. unfold xa_load. rewrite Hl. simpl.
  rewrite xa_mk_value_nonzero, xa_is_value_mk_value, xa_to_value_mk_value by lia.
  split; reflexivity.
Qed.

Lemma xa_load_absent (xa : xarray) (index : Z) :
  xa !! index = None ->
  negb (xa_load xa index =? 0) && xa_is_value (xa_load xa index) = false.
Proof. intros Hl. unfold xa_load. rewrite Hl. reflexivity. Qed.

Lemma inc_promotions_allowed_delta (st : ppt_stats) :
  0 <= ppt_stats_promotions_allowed st < S64_MAX ->
  inc_promotions_allowed st = stats_delta st 1 0 0 0 0 0.
Proof.
  intros H. unfold inc_promotions_allowed, stats_delta.
  rewrite atomic64_inc_in_range by exact H. rewrite !Z.add_0_r. reflexivity.
Qed.

Lemma inc_promotions_throttled_delta (st : ppt_stats) :
  0 <= ppt_stats_promotions_throttled st < S64_MAX ->
  inc_promotions_throttled st = stats_delta st 0 1 0 0 0 0.
Proof.
  intros H. unfold inc_promotions_throttled, stats_delta.
  rewrite atomic64_inc_in_range by exact H. rewrite !Z.add_0_r. reflexivity.
Qed.

Lemma inc_demotions_short_lived_delta (st : ppt_stats) :
  0 <= ppt_stats_demotions_short_lived st < S64_MAX ->
  inc_demotions_short_lived st = stats_delta st 0 0 1 0 0 0.
Proof.
  intros H. unfold inc_demotions_short_lived, stats_delta.
  rewrite atomic64_inc_in_range by exact H. rewrite !Z.add_0_r. reflexivity.
Qed.

Lemma inc_demotions_long_lived_delta (st : ppt_stats) :
  0 <= ppt_stats_demotions_long_lived st < S64_MAX ->
  inc_demotions_long_lived st = stats_delta st 0 0 0 1 0 0.
Proof.
  intros H. unfold inc_demotions_long_lived, stats_delta.
  rewrite atomic64_inc_in_range by exact H. rewrite !Z.add_0_r. reflexivity.
Qed.

Lemma inc_xarray_stores_failed_delta (st : ppt_stats) :
  0 <= ppt_stats_xarray_stores_failed st < S64_MAX ->
  inc_xarray_stores_failed st = stats_delta st 0 0 0 0 1 0.
Proof.
  intros H. unfold inc_xarray_stores_failed, stats_delta.
  rewrite atomic64_inc_in_range by exact H. rewrite !Z.add_0_r. reflexivity.
Qed.

Lemma inc_state_exceptions_delta (st : ppt_stats) :
  0 <= ppt_stats_state_exceptions st < S64_MAX ->
  inc_state_exceptions st = stats_delta st 0 0 0 0 0 1.
Proof.
  intros H. unfold inc_state_exceptions, stats_delta.
  rewrite atomic64_inc_in_range by exact H. rewrite !Z.add_0_r. reflexivity.
Qed.

(** ** The record encoding and the elapsed-time arithmetic *)

(** C10: the record-value encoding round-trips.  For every clock value [j]
    and every flag [p] in {0, 1}, decoding the timestamp of
    [PPT_MAKE_VALUE j p] gives [j] modulo 2^22 and decoding the flag gives
    [p]: the flag bit does not reach the timestamp and no timestamp bit
    reaches the flag. *)
Theorem C10_encoding_roundtrip (j p : Z) :
  p = 0 \/ p = 1 ->
  PPT_GET_JIFFIES (PPT_MAKE_VALUE j p) = j mod 2 ^ 22 /\
  PPT_GET_PINGPONG (PPT_MAKE_VALUE j p) = p.
Proof.
  intros Hp. split.
  - apply get_jiffies_make_value.
  - rewrite get_pingpong_make_value. destruct Hp as [-> | ->]; reflexivity.
Qed.


(** ** The promotion-throttle check *)

(** What [ppt_should_throttle_promotion] does with a record it finds, for
    an enabled engine and a live store. *)
Lemma should_throttle_record (cfg : ppt_config) (jiffies : Z) (mm : mm_struct)
    (xa : xarray) (pfn v : Z) (st : ppt_stats) (out_flags : Z) :
  ppt_enabled cfg = true ->
  ppt_xarray mm = Some xa ->
  0 <= v < 2 ^ 63 ->
  xa !! pfn = Some (xa_mk_value v) ->
  ppt_should_throttle_promotion cfg jiffies mm pfn st out_flags =
    if PPT_GET_PINGPONG v =? 0 then
      (false, mk_mm (delete pfn xa) (atomic_dec (ppt_entry_count mm)),
       inc_state_exceptions st, out_flags)
    else if (jiffies - PPT_GET_JIFFIES v) mod 2 ^ 22
            <? msecs_to_jiffies (ppt_promotion_throttle_duration cfg) then
      (true, mm, inc_promotions_throttled st, Z.lor out_flags TNF_THROTTLED)
    else
      (false, mk_mm (delete pfn xa) (atomic_dec (ppt_entry_count mm)),
       inc_promotions_allowed st, out_flags).
Proof.
  intros Hen Hxa Hv Hl.
  unfold ppt_should_throttle_promotion. rewrite Hen, Hxa. change (negb true) with false. cbv beta iota zeta.
  destruct (xa_load_record xa pfn v Hv Hl) as [-> ->].
  rewrite ppt_diff_masked.
  reflexivity.
Qed.

(** C4: a page with no record is not throttled.  For an enabled engine
    with a live store and no record at the page's frame number, the check
    returns false, adds one to "promotions allowed" and to no other
    counter, and leaves the store, the entry count and the flags as they
    were. *)
Theorem C4_no_record_not_throttled (cfg : ppt_config) (jiffies : Z)
    (mm : mm_struct) (xa : xarray) (pfn : Z) (st : ppt_stats) (out_flags : Z) :
  ppt_enabled cfg = true ->
  ppt_xarray mm = Some xa ->
  xa !! pfn = None ->
  0 <= ppt_stats_promotions_allowed st < S64_MAX ->
  ppt_should_throttle_promotion cfg jiffies mm pfn st out_flags =
    (false, mm, stats_delta st 1 0 0 0 0 0, out_flags).
Proof.
  intros Hen Hxa Hl Hst.
  unfold ppt_should_throttle_promotion. rewrite Hen, Hxa. change (negb true) with false. cbv beta iota zeta.
  rewrite xa_load_absent by exact Hl.
  rewrite inc_promotions_allowed_delta by exact Hst.
  reflexivity.
Qed.

(** C5 as the code has it: a record whose flag says "fast tier" is a state
    inconsistency.  The check erases the record, takes one off the entry
    count, adds one to "state inconsistency" and to no other statistics
    counter, and returns false with the flags untouched. *)
Theorem C5_inconsistent_record_fails_open (cfg : ppt_config) (jiffies : Z)
    (mm : mm_struct) (xa : xarray) (pfn v : Z) (st : ppt_stats)
    (out_flags : Z) :
  ppt_enabled cfg = true ->
  ppt_xarray mm = Some xa ->
  0 <= v < 2 ^ 63 ->
  xa !! pfn = Some (xa_mk_value v) ->
  PPT_GET_PINGPONG v = 0 ->
  INT_MIN < ppt_entry_count mm <= INT_MAX ->
  0 <= ppt_stats_state_exceptions st < S64_MAX ->
  ppt_should_throttle_promotion cfg jiffies mm pfn st out_flags =
    (false, mk_mm (delete pfn xa) (ppt_entry_count mm - 1),
     stats_delta st 0 0 0 0 0 1, out_flags).
Proof.
  intros Hen Hxa Hv Hl Hflag Hc Hst.
  rewrite (should_throttle_record cfg jiffies mm xa pfn v) by assumption.
  rewrite Hflag. change (0 =? 0) with true. cbv iota.
  rewrite atomic_dec_in_range by exact Hc.
  rewrite inc_state_exceptions_delta by exact Hst.
  reflexivity.
Qed.

(** C2 as the code has it: the throttle window is decided by the wrapped
    elapsed time.  For an enabled engine with a live store and a record
    with the flag set, the check compares the elapsed time modulo 2^22 with
    the threshold: below it, it returns true, sets [TNF_THROTTLED], adds
    one to "promotions throttled" and keeps the record; otherwise it
    returns false, erases the record, takes one off the entry count and
    adds one to "promotions allowed".  For a record written at clock [T]
    the call at [T + d] therefore throttles exactly when [d mod 2^22] is
    below the threshold: it does at [d = threshold - 1] (for a threshold of
    at least one tick) and does not for [threshold <= d < 2^22]. *)
Theorem C2_throttle_window (cfg : ppt_config) (jiffies : Z) (mm : mm_struct)
    (xa : xarray) (pfn v : Z) (st : ppt_stats) (out_flags : Z) :
  ppt_enabled cfg = true ->
  ppt_xarray mm = Some xa ->
  0 <= v < 2 ^ 63 ->
  xa !! pfn = Some (xa_mk_value v) ->
  PPT_GET_PINGPONG v = 1 ->
  INT_MIN < ppt_entry_count mm <= INT_MAX ->
  0 <= ppt_stats_promotions_allowed st < S64_MAX ->
  0 <= ppt_stats_promotions_throttled st < S64_MAX ->
  let threshold := msecs_to_jiffies (ppt_promotion_throttle_duration cfg) in
  let elapsed := (jiffies - PPT_GET_JIFFIES v) mod 2 ^ 22 in
  let result := ppt_should_throttle_promotion cfg jiffies mm pfn st out_flags in
  (elapsed < threshold ->
     result = (true, mm, stats_delta st 0 1 0 0 0 0,
               Z.lor out_flags TNF_THROTTLED)) /\
  (threshold <= elapsed ->
     result = (false, mk_mm (delete pfn xa) (ppt_entry_count mm - 1),
               stats_delta st 1 0 0 0 0 0, out_flags)) /\
  (forall T d : Z,
     PPT_GET_JIFFIES v = Z.land T PPT_JIFFIES_MASK ->
     jiffies = ulong (T + d) ->
     elapsed = d mod 2 ^ 22 /\
     (1 <= threshold -> d = threshold - 1 -> result.1.1.1 = true) /\
     (threshold <= d < 2 ^ 22 -> result.1.1.1 = false)).
Proof.
  intros Hen Hxa Hv Hl Hflag Hc Ha Ht threshold elapsed result.
  assert (Hres : result =
    if elapsed <? threshold
    then (true, mm, stats_delta st 0 1 0 0 0 0, Z.lor out_flags TNF_THROTTLED)
    else (false, mk_mm (delete pfn xa) (ppt_entry_count mm - 1),
          stats_delta st 1 0 0 0 0 0, out_flags)).
  { unfold result.
    rewrite (should_throttle_record cfg jiffies mm xa pfn v) by assumption.
    rewrite Hflag. change (1 =? 0) with false. cbv iota.
    rewrite atomic_dec_in_range by exact Hc.
    rewrite inc_promotions_allowed_delta by exact Ha.
    rewrite inc_promotions_throttled_delta by exact Ht.
    reflexivity. }
  split; [|split].
  - intros Hlt. rewrite Hres.
    destruct (Z.ltb_spec elapsed threshold); [reflexivity | lia].
  - intros Hge. rewrite Hres.
    destruct (Z.ltb_spec elapsed threshold); [lia | reflexivity].
  - intros T d HT Hj.
    assert (He : elapsed = d mod 2 ^ 22).
    { unfold elapsed. rewrite HT, Hj, land_mask_mod.
      rewrite Zminus_mod_idemp_r.
      rewrite <- Zminus_mod_idemp_l, ulong_mod_mask, Zminus_mod_idemp_l.
      f_equal. lia. }
    split; [exact He|]. split.
    + intros Hthr ->. rewrite Hres.
      destruct (Z.ltb_spec elapsed threshold) as [_|Hge]; [reflexivity|].
      exfalso. rewrite He in Hge.
      pose proof (Z.mod_le (threshold - 1) (2 ^ 22) ltac:(lia) ltac:(lia)).
      lia.
    + intros Hd. rewrite Hres.
      destruct (Z.ltb_spec elapsed threshold) as [Hlt|_]; [|reflexivity].
      exfalso.
      pose proof (Z.mod_pos_bound d (2 ^ 22) ltac:(lia)) as Hb.
      destruct (Z.le_gt_cases 0 d) as [Hd0|Hd0].
      * rewrite He, Z.mod_small in Hlt by lia. lia.
      * rewrite He in Hlt. lia.
Qed.

(** ** Recording a demotion *)

(** C3: [ppt_track_demotion] on an enabled engine with a live store.
    (1) A record at [old_pfn] younger than the lifetime threshold is erased
    and a record with the flag set and the current timestamp is stored at
    [new_pfn]; a successful store adds one to "short-lived demotions", a
    failed one adds one to "failed record-store attempts" and takes one off
    the entry count.  (2) A record at or beyond the threshold is erased,
    the entry count goes down by one, "long-lived demotions" goes up by
    one and nothing is stored.  (3) With no record at [old_pfn] neither the
    store nor any counter changes. *)
Theorem C3_track_demotion (cfg : ppt_config) (jiffies : Z) (mm : mm_struct)
    (xa : xarray) (old_pfn new_pfn : Z) (st : ppt_stats) :
  ppt_enabled cfg = true ->
  ppt_xarray mm = Some xa ->
  INT_MIN < ppt_entry_count mm <= INT_MAX ->
  stats_in_range st ->
  let threshold := msecs_to_jiffies (ppt_promotion_lifetime_expiration cfg) in
  let new_value := PPT_MAKE_VALUE (Z.land jiffies PPT_JIFFIES_MASK) 1 in
  (forall v : Z,
     0 <= v < 2 ^ 63 ->
     xa !! old_pfn = Some (xa_mk_value v) ->
     let elapsed := (jiffies - PPT_GET_JIFFIES v) mod 2 ^ 22 in
     (elapsed < threshold ->
        ppt_track_demotion cfg jiffies true mm old_pfn new_pfn st =
          (mk_mm (<[new_pfn := xa_mk_value new_value]> (delete old_pfn xa))
                 (ppt_entry_count mm),
           stats_delta st 0 0 1 0 0 0) /\
        ppt_track_demotion cfg jiffies false mm old_pfn new_pfn st =
          (mk_mm (delete old_pfn xa) (ppt_entry_count mm - 1),
           stats_delta st 0 0 0 0 1 0)) /\
     (threshold <= elapsed ->
        forall gfp_ok : bool,
        ppt_track_demotion cfg jiffies gfp_ok mm old_pfn new_pfn st =
          (mk_mm (delete old_pfn xa) (ppt_entry_count mm - 1),
           stats_delta st 0 0 0 1 0 0))) /\
  (xa !! old_pfn = None ->
     forall gfp_ok : bool,
     ppt_track_demotion cfg jiffies gfp_ok mm old_pfn new_pfn st = (mm, st)) /\
  PPT_GET_PINGPONG (xa_to_value (xa_mk_value new_value)) = 1 /\
  PPT_GET_JIFFIES (xa_to_value (xa_mk_value new_value)) = jiffies mod 2 ^ 22.
Proof.
  intros Hen Hxa Hc (Ha & Ht & Hs & Hlg & Hf & He) threshold new_value.
  split; [|split; [|split]].
  - intros v Hv Hl elapsed.
    assert (Hbody : forall gfp_ok,
      ppt_track_demotion cfg jiffies gfp_ok mm old_pfn new_pfn st =
      if elapsed <? threshold then
        match __xa_store (delete old_pfn xa) new_pfn (xa_mk_value new_value) gfp_ok with
        | None => (mk_mm (delete old_pfn xa) (atomic_dec (ppt_entry_count mm)),
                   inc_xarray_stores_failed st)
        | Some xa' => (mk_mm xa' (ppt_entry_count mm), inc_demotions_short_lived st)
        end
      else (mk_mm (delete old_pfn xa) (atomic_dec (ppt_entry_count mm)),
            inc_demotions_long_lived st)).
    { intros gfp_ok. unfold ppt_track_demotion. rewrite Hen, Hxa. change (negb true) with false. cbv beta iota zeta.
      destruct (xa_load_record xa old_pfn v Hv Hl) as [-> ->].
      rewrite ppt_diff_masked.
      reflexivity. }
    split.
    + intros Hlt. rewrite !Hbody.
      destruct (Z.ltb_spec elapsed threshold); [|lia].
      unfold __xa_store. cbv iota.
      rewrite atomic_dec_in_range by exact Hc.
      rewrite inc_demotions_short_lived_delta by exact Hs.
      rewrite inc_xarray_stores_failed_delta by exact Hf.
      split; reflexivity.
    + intros Hge gfp_ok. rewrite Hbody.
      destruct (Z.ltb_spec elapsed threshold); [lia|].
      rewrite atomic_dec_in_range by exact Hc.
      rewrite inc_demotions_long_lived_delta by exact Hlg.
      reflexivity.
  - intros Hl gfp_ok. unfold ppt_track_demotion. rewrite Hen, Hxa. change (negb true) with false. cbv beta iota zeta.
    rewrite xa_load_absent by exact Hl. reflexivity.
  - pose proof (make_value_range (Z.land jiffies PPT_JIFFIES_MASK) 1) as Hr.
    unfold new_value. rewrite xa_to_value_mk_value by lia.
    apply get_pingpong_make_value.
  - pose proof (make_value_range (Z.land jiffies PPT_JIFFIES_MASK) 1) as Hr.
    unfold new_value. rewrite xa_to_value_mk_value by lia.
    rewrite get_jiffies_make_value, land_mask_mod. apply Z.mod_mod. lia.
Qed.

(** ** The disabled engine *)

(** C7: with [ppt_enabled] false the three entry points do nothing.  The
    throttle check returns false and leaves the [mm], the statistics and
    the flags as they were, the two recording calls leave the [mm] and the
    statistics as they were, and so a system of any number of owners is
    unchanged by a call on any of them: every store, every entry count and
    all six counters. *)
Theorem C7_disabled_is_noop (cfg : ppt_config) (jiffies jiffies_evict : Z)
    (gfp_ok : bool)
    (sys : ppt_system) (mm : mm_struct) (mm_addr pfn old_pfn new_pfn : Z)
    (st : ppt_stats) (out_flags : Z) :
  ppt_enabled cfg = false ->
  ppt_should_throttle_promotion cfg jiffies mm pfn st out_flags
    = (false, mm, st, out_flags) /\
  ppt_track_promotion cfg jiffies jiffies_evict gfp_ok mm old_pfn new_pfn st = (mm, st) /\
  ppt_track_demotion cfg jiffies gfp_ok mm old_pfn new_pfn st = (mm, st) /\
  sys_should_throttle_promotion cfg jiffies sys mm_addr pfn out_flags
    = (false, sys, out_flags) /\
  sys_track_promotion cfg jiffies jiffies_evict gfp_ok sys mm_addr old_pfn new_pfn = sys /\
  sys_track_demotion cfg jiffies gfp_ok sys mm_addr old_pfn new_pfn = sys.
Proof.
  intros Hen.
  assert (H1 : forall m s f, ppt_should_throttle_promotion cfg jiffies m pfn s f
                             = (false, m, s, f)).
  { intros. unfold ppt_should_throttle_promotion. rewrite Hen. reflexivity. }
  assert (H2 : forall m s, ppt_track_promotion cfg jiffies jiffies_evict gfp_ok m old_pfn new_pfn s
                           = (m, s)).
  { intros. unfold ppt_track_promotion. rewrite Hen. reflexivity. }
  assert (H3 : forall m s, ppt_track_demotion cfg jiffies gfp_ok m old_pfn new_pfn s
                           = (m, s)).
  { intros. unfold ppt_track_demotion. rewrite Hen. reflexivity. }
  destruct sys as [mms sst].
  repeat split; auto.
  - unfold sys_should_throttle_promotion. cbn [sys_mm sys_stats].
    destruct (mms !! mm_addr) as [m|] eqn:Hm; [|reflexivity].
    rewrite H1, insert_id by exact Hm. reflexivity.
  - unfold sys_track_promotion. cbn [sys_mm sys_stats].
    destruct (mms !! mm_addr) as [m|] eqn:Hm; [|reflexivity].
    rewrite H2, insert_id by exact Hm. reflexivity.
  - unfold sys_track_demotion. cbn [sys_mm sys_stats].
    destruct (mms !! mm_addr) as [m|] eqn:Hm; [|reflexivity].
    rewrite H3, insert_id by exact Hm. reflexivity.
Qed.

(** ** The entry counter and the number of records *)

Lemma size_delete_le (xa : xarray) (k : Z) :
  Z.of_nat (size (delete k xa)) <= Z.of_nat (size xa).
Proof.
  rewrite map_size_delete. destruct (xa !! k); simpl; lia.
Qed.

Lemma size_delete_present (xa : xarray) (k e : Z) :
  xa !! k = Some e ->
  Z.of_nat (size (delete k xa)) = Z.of_nat (size xa) - 1 /\
  1 <= Z.of_nat (size xa).
Proof.
  intros Hl.
  assert (Hne : size xa <> 0%nat).
  { intros H0. apply map_size_empty_inv in H0. subst xa.
    rewrite lookup_empty in Hl. discriminate. }
  rewrite map_size_delete, Hl. simpl. lia.
Qed.

Lemma size_insert_le (xa : xarray) (k e : Z) :
  Z.of_nat (size (<[k := e]> xa)) <= Z.of_nat (size xa) + 1.
Proof.
  rewrite map_size_insert. destruct (xa !! k); simpl; lia.
Qed.

Lemma elem_of_xa_for_each (xa : xarray) (k e : Z) :
  (k, e) ∈ xa_for_each xa <-> xa !! k = Some e.
Proof.
  unfold xa_for_each.
  rewrite (merge_sort_Permutation index_le (map_to_list xa)).
  apply elem_of_map_to_list.
Qed.

(** The expiry test of the two scans, in terms of the wrapped distance. *)
Lemma entry_expired_wrapped (cfg : ppt_config) (jiffies entry : Z) :
  entry_expired cfg jiffies entry =
    xa_is_value entry &&
    ((if PPT_GET_PINGPONG (xa_to_value entry) =? 0
      then msecs_to_jiffies (ppt_promotion_lifetime_expiration cfg)
      else msecs_to_jiffies (ppt_promotion_throttle_duration cfg))
     <=? (jiffies - PPT_GET_JIFFIES (xa_to_value entry)) mod 2 ^ 22).
Proof. unfold entry_expired. rewrite ppt_diff_masked. reflexivity. Qed.

(** One visit of the single-entry scan: an expired entry is erased and the
    scan stops, any other entry is passed over. *)
Lemma evict_loop_visit (cfg : ppt_config) (jiffies index entry : Z)
    (rest : list (Z * Z)) (xa : xarray) (count : Z) :
  evict_loop cfg (Z.land jiffies PPT_JIFFIES_MASK) ((index, entry) :: rest)
    xa count =
  if entry_expired cfg jiffies entry
  then (delete index xa, atomic_dec count)
  else evict_loop cfg (Z.land jiffies PPT_JIFFIES_MASK) rest xa count.
Proof.
  cbn [evict_loop]. cbv zeta. unfold entry_expired.
  destruct (xa_is_value entry); reflexivity.
Qed.

(** One visit of the shrinker scan: it stops once [nr_to_scan] entries are
    freed, erases an expired entry and goes on, passes over any other. *)
Lemma shrink_loop_visit (cfg : ppt_config) (jiffies nr_to_scan index entry : Z)
    (rest : list (Z * Z)) (xa : xarray) (count freed : Z) :
  shrink_loop cfg (Z.land jiffies PPT_JIFFIES_MASK) nr_to_scan
    ((index, entry) :: rest) xa count freed =
  if nr_to_scan <=? freed then (xa, count, freed)
  else if entry_expired cfg jiffies entry
  then shrink_loop cfg (Z.land jiffies PPT_JIFFIES_MASK) nr_to_scan rest
         (delete index xa) (atomic_dec count) (ulong (freed + 1))
  else shrink_loop cfg (Z.land jiffies PPT_JIFFIES_MASK) nr_to_scan rest
         xa count freed.
Proof.
  cbn [shrink_loop]. cbv zeta. unfold entry_expired.
  destruct (nr_to_scan <=? freed); [reflexivity|].
  destruct (xa_is_value entry); reflexivity.
Qed.


(** When some entry still to visit is expired, the scan erases a record. *)
Lemma evict_loop_expired (cfg : ppt_config) (jiffies : Z)
    (entries : list (Z * Z)) (xa : xarray) (count : Z) :
  (forall k e, (k, e) ∈ entries -> xa !! k = Some e) ->
  (exists k e, (k, e) ∈ entries /\ entry_expired cfg jiffies e = true) ->
  exists k e, xa !! k = Some e /\
    evict_loop cfg (Z.land jiffies PPT_JIFFIES_MASK) entries xa count
      = (delete k xa, atomic_dec count).
Proof.
  induction entries as [|[index entry] rest IH]; intros Hin (k & e & Hk & Hexp).
  - inversion Hk.
  - assert (Hrest : forall k e, (k, e) ∈ rest -> xa !! k = Some e).
    { intros k' e' Hk'. apply Hin. right. exact Hk'. }
    cbn [evict_loop]. cbv zeta.
    destruct (xa_is_value entry) eqn:Hval.
    + match goal with |- context [if ?c then (__xa_erase _ _, _) else _] =>
        destruct c eqn:Hthr end.
      * exists index, entry. split; [|reflexivity]. apply Hin. left.
      * apply (IH Hrest). exists k, e. split; [|exact Hexp].
        apply elem_of_cons in Hk as [Heq|Hk]; [|exact Hk].
        injection Heq as -> ->.
        unfold entry_expired in Hexp. rewrite Hval, Hthr in Hexp.
        discriminate.
    + apply (IH Hrest). exists k, e. split; [|exact Hexp].
      apply elem_of_cons in Hk as [Heq|Hk]; [|exact Hk].
      injection Heq as -> ->.
      unfold entry_expired in Hexp. rewrite Hval in Hexp. discriminate.
Qed.


Lemma evict_expired (cfg : ppt_config) (jiffies : Z) (mm : mm_struct)
    (xa : xarray) :
  ppt_xarray mm = Some xa ->
  (exists k e, xa !! k = Some e /\ entry_expired cfg jiffies e = true) ->
  exists k e, xa !! k = Some e /\
    ppt_evict_expired_entry cfg jiffies mm
      = mk_mm (delete k xa) (atomic_dec (ppt_entry_count mm)).
Proof.
  intros Hxa (k & e & Hk & Hexp).
  unfold ppt_evict_expired_entry. rewrite Hxa. cbv zeta.
  destruct (evict_loop_expired cfg jiffies (xa_for_each xa) xa
              (ppt_entry_count mm)) as (k' & e' & Hk' & H).
  - intros k0 e0. apply elem_of_xa_for_each.
  - exists k, e. split; [|exact Hexp]. apply elem_of_xa_for_each. exact Hk.
  - exists k', e'. rewrite H. split; [exact Hk' | reflexivity].
Qed.







(** ** Further properties of the three entry points *)

Lemma track_demotion_record (cfg : ppt_config) (jiffies : Z) (gfp_ok : bool)
    (mm : mm_struct) (xa : xarray) (old_pfn new_pfn v : Z) (st : ppt_stats) :
  ppt_enabled cfg = true ->
  ppt_xarray mm = Some xa ->
  0 <= v < 2 ^ 63 ->
  xa !! old_pfn = Some (xa_mk_value v) ->
  ppt_track_demotion cfg jiffies gfp_ok mm old_pfn new_pfn st =
    if (jiffies - PPT_GET_JIFFIES v) mod 2 ^ 22
       <? msecs_to_jiffies (ppt_promotion_lifetime_expiration cfg) then
      if gfp_ok then
        (mk_mm (<[new_pfn := xa_mk_value
                    (PPT_MAKE_VALUE (Z.land jiffies PPT_JIFFIES_MASK) 1)]>
                  (delete old_pfn xa))
               (ppt_entry_count mm),
         inc_demotions_short_lived st)
      else
        (mk_mm (delete old_pfn xa) (atomic_dec (ppt_entry_count mm)),
         inc_xarray_stores_failed st)
    else
      (mk_mm (delete old_pfn xa) (atomic_dec (ppt_entry_count mm)),
       inc_demotions_long_lived st).
Proof.
  intros Hen Hxa Hv Hl.
  unfold ppt_track_demotion. rewrite Hen, Hxa.
  change (negb true) with false. cbv beta iota zeta.
  destruct (xa_load_record xa old_pfn v Hv Hl) as [-> ->].
  rewrite ppt_diff_masked. unfold __xa_store, __xa_erase.
  destruct gfp_ok; reflexivity.
Qed.

Lemma record_range (e : Z) :
  is_record e -> exists v, 0 <= v < 2 ^ 63 /\ e = xa_mk_value v.
Proof.
  intros (ts & flag & _ & ->). exists (PPT_MAKE_VALUE ts flag).
  pose proof (make_value_range ts flag). split; [lia | reflexivity].
Qed.

Lemma evict_loop_none (cfg : ppt_config) (jiffies : Z)
    (entries : list (Z * Z)) (xa : xarray) (count : Z) :
  (forall k e, (k, e) ∈ entries -> entry_expired cfg jiffies e = false) ->
  evict_loop cfg (Z.land jiffies PPT_JIFFIES_MASK) entries xa count
    = (xa, count).
Proof.
  induction entries as [|[index entry] rest IH]; intros Hnone.
  - reflexivity.
  - rewrite evict_loop_visit, (Hnone index entry) by left.
    apply IH. intros k e Hk. apply (Hnone k e). right. exact Hk.
Qed.

Lemma evict_none (cfg : ppt_config) (jiffies : Z) (mm : mm_struct)
    (xa : xarray) :
  ppt_xarray mm = Some xa ->
  (forall k e, xa !! k = Some e -> entry_expired cfg jiffies e = false) ->
  ppt_evict_expired_entry cfg jiffies mm = mk_mm xa (ppt_entry_count mm).
Proof.
  intros Hxa Hnone. unfold ppt_evict_expired_entry. rewrite Hxa. cbv zeta.
  rewrite evict_loop_none; [reflexivity|].
  intros k e Hk. apply (Hnone k e). apply elem_of_xa_for_each. exact Hk.
Qed.

(** The single-entry scan, with what it erased: nothing, or one record of
    the entries visited that was expired. *)
Lemma evict_loop_spec (cfg : ppt_config) (jiffies : Z)
    (entries : list (Z * Z)) (xa : xarray) (count : Z) :
  evict_loop cfg (Z.land jiffies PPT_JIFFIES_MASK) entries xa count
    = (xa, count) \/
  exists k e, (k, e) ∈ entries /\ entry_expired cfg jiffies e = true /\
    evict_loop cfg (Z.land jiffies PPT_JIFFIES_MASK) entries xa count
      = (delete k xa, atomic_dec count).
Proof.
  induction entries as [|[index entry] rest IH].
  - left. reflexivity.
  - rewrite evict_loop_visit.
    destruct (entry_expired cfg jiffies entry) eqn:Hexp.
    + right. exists index, entry. split; [left|]. split; [exact Hexp|reflexivity].
    + destruct IH as [IH|(k & e & Hk & He & IH)].
      * left. exact IH.
      * right. exists k, e. split; [right; exact Hk|]. split; assumption.
Qed.

Lemma evict_spec (cfg : ppt_config) (jiffies : Z) (mm : mm_struct)
    (xa : xarray) :
  ppt_xarray mm = Some xa ->
  ppt_evict_expired_entry cfg jiffies mm = mk_mm xa (ppt_entry_count mm) \/
  exists k e, xa !! k = Some e /\ entry_expired cfg jiffies e = true /\
    ppt_evict_expired_entry cfg jiffies mm
      = mk_mm (delete k xa) (atomic_dec (ppt_entry_count mm)).
Proof.
  intros Hxa. unfold ppt_evict_expired_entry. rewrite Hxa. cbv zeta.
  destruct (evict_loop_spec cfg jiffies (xa_for_each xa) xa
              (ppt_entry_count mm)) as [H|(k & e & Hk & He & H)]; rewrite H.
  - left. reflexivity.
  - right. exists k, e. split; [apply elem_of_xa_for_each; exact Hk|].
    split; [exact He | reflexivity].
Qed.

(** X1: what a promotion records.  For an enabled engine with a live store
    that is below the maximum, or at it with no record expired at the
    clock value the eviction reads, [ppt_track_promotion] erases the record
    at [old_pfn]; a successful store puts a record with the flag clear and
    the timestamp read on entry at [new_pfn] and adds one to the entry
    count, a failed store adds one to "failed record-store attempts" and
    leaves the count alone. *)
Theorem promotion_records_fast_tier (cfg : ppt_config) (jiffies jiffies_evict : Z)
    (mm : mm_struct) (xa : xarray) (old_pfn new_pfn : Z) (st : ppt_stats) :
  ppt_enabled cfg = true ->
  ppt_xarray mm = Some xa ->
  INT_MIN <= ppt_entry_count mm < INT_MAX ->
  0 <= ppt_stats_xarray_stores_failed st < S64_MAX ->
  (ulong (ppt_entry_count mm) < ppt_max_entries_per_mm cfg \/
   forall k e, xa !! k = Some e ->
     entry_expired cfg jiffies_evict e = false) ->
  let new_value := PPT_MAKE_VALUE (Z.land jiffies PPT_JIFFIES_MASK) 0 in
  ppt_track_promotion cfg jiffies jiffies_evict true mm old_pfn new_pfn st =
    (mk_mm (<[new_pfn := xa_mk_value new_value]> (delete old_pfn xa))
           (ppt_entry_count mm + 1), st) /\
  ppt_track_promotion cfg jiffies jiffies_evict false mm old_pfn new_pfn st =
    (mk_mm (delete old_pfn xa) (ppt_entry_count mm),
     stats_delta st 0 0 0 0 1 0) /\
  PPT_GET_PINGPONG (xa_to_value (xa_mk_value new_value)) = 0 /\
  PPT_GET_JIFFIES (xa_to_value (xa_mk_value new_value)) = jiffies mod 2 ^ 22.
Proof.
  intros Hen Hxa Hc Hf Hroom new_value.
  assert (Hmid :
    (if ppt_max_entries_per_mm cfg <=? ulong (ppt_entry_count mm)
     then ppt_evict_expired_entry cfg jiffies_evict mm else mm)
    = mk_mm xa (ppt_entry_count mm)).
  { destruct (Z.leb_spec (ppt_max_entries_per_mm cfg)
                         (ulong (ppt_entry_count mm))) as [Hfull|Hbelow].
    - destruct Hroom as [Hlt|Hnone]; [lia|].
      apply evict_none; assumption.
    - destruct mm as [x c]. cbn [ppt_xarray] in Hxa. subst x. reflexivity. }
  assert (Hbody : forall gfp_ok,
    ppt_track_promotion cfg jiffies jiffies_evict gfp_ok mm old_pfn new_pfn st =
    if gfp_ok
    then (mk_mm (<[new_pfn := xa_mk_value new_value]> (delete old_pfn xa))
                (atomic_inc (ppt_entry_count mm)), st)
    else (mk_mm (delete old_pfn xa) (ppt_entry_count mm),
          inc_xarray_stores_failed st)).
  { intros gfp_ok. unfold ppt_track_promotion. cbv zeta.
    rewrite Hen, Hmid. change (negb true) with false. cbv iota.
    cbn [mk_mm ppt_xarray ppt_entry_count].
    unfold __xa_store, __xa_erase. destruct gfp_ok; reflexivity. }
  pose proof (make_value_range (Z.land jiffies PPT_JIFFIES_MASK) 0) as Hr.
  split; [|split; [|split]].
  - rewrite Hbody, atomic_inc_in_range by exact Hc. reflexivity.
  - rewrite Hbody, inc_xarray_stores_failed_delta by exact Hf. reflexivity.
  - unfold new_value. rewrite xa_to_value_mk_value by lia.
    apply get_pingpong_make_value.
  - unfold new_value. rewrite xa_to_value_mk_value by lia.
    rewrite get_jiffies_make_value, land_mask_mod. apply Z.mod_mod. lia.
Qed.

(** X2: a NULL store makes every entry point inert.  After
    [ppt_mm_destroy], or after a [ppt_mm_init] whose allocation failed, the
    throttle check returns false and the three entry points, the
    single-entry eviction and the shrinker scan change neither the
    [mm_struct] nor any statistics counter, whether the engine is enabled
    or not; the scan frees 0, the reported entry count is 0 and a second
    destroy does nothing. *)
Theorem null_store_is_inert (cfg : ppt_config) (jiffies jiffies_evict : Z) (gfp_ok : bool)
    (mm0 dead : mm_struct) (pfn old_pfn new_pfn nr_to_scan : Z)
    (st : ppt_stats) (out_flags : Z) :
  dead = ppt_mm_destroy mm0 \/ dead = ppt_mm_init false mm0 ->
  ppt_should_throttle_promotion cfg jiffies dead pfn st out_flags
    = (false, dead, st, out_flags) /\
  ppt_track_promotion cfg jiffies jiffies_evict gfp_ok dead old_pfn new_pfn st = (dead, st) /\
  ppt_track_demotion cfg jiffies gfp_ok dead old_pfn new_pfn st = (dead, st) /\
  ppt_evict_expired_entry cfg jiffies dead = dead /\
  ppt_shrink_mm_xarray cfg jiffies dead nr_to_scan = (dead, 0) /\
  ppt_mm_entry_count dead = 0 /\
  ppt_mm_destroy dead = dead.
Proof.
  intros Hdead.
  assert (Hnull : ppt_xarray dead = None).
  { destruct Hdead as [-> | ->].
    - unfold ppt_mm_destroy. destruct (ppt_xarray mm0) eqn:Hx; [reflexivity|exact Hx].
    - reflexivity. }
  assert (Hev : forall j, ppt_evict_expired_entry cfg j dead = dead).
  { intros j. unfold ppt_evict_expired_entry. rewrite Hnull. reflexivity. }
  repeat split.
  - unfold ppt_should_throttle_promotion. rewrite Hnull.
    destruct (ppt_enabled cfg); reflexivity.
  - unfold ppt_track_promotion. cbv zeta. rewrite Hev.
    destruct (ppt_enabled cfg); cbn [negb]; [|reflexivity].
    destruct (ppt_max_entries_per_mm cfg <=? ulong (ppt_entry_count dead));
      rewrite Hnull; reflexivity.
  - unfold ppt_track_demotion. rewrite Hnull.
    destruct (ppt_enabled cfg); reflexivity.
  - apply Hev.
  - unfold ppt_shrink_mm_xarray. rewrite Hnull. reflexivity.
  - unfold ppt_mm_entry_count. rewrite Hnull. reflexivity.
  - unfold ppt_mm_destroy. rewrite Hnull. reflexivity.
Qed.

(** X3: a forked owner starts untracked.  Whatever the parent and the
    child [mm_struct] held before, after a [ppt_mm_fork] whose allocation
    succeeds the child has an empty store and a zero count, and a throttle
    check on any page of the child returns false and leaves the child and
    the flags as they were. *)
Theorem fork_starts_untracked (cfg : ppt_config) (jiffies : Z)
    (oldmm newmm : mm_struct) (pfn : Z) (st : ppt_stats) (out_flags : Z) :
  let child := ppt_mm_fork true oldmm newmm in
  let r := ppt_should_throttle_promotion cfg jiffies child pfn st out_flags in
  mm_records child = 0 /\
  ppt_mm_entry_count child = 0 /\
  (forall k, mm_lookup child k = None) /\
  r.1.1.1 = false /\ r.1.1.2 = child /\ r.2 = out_flags.
Proof.
  intros child r. split; [reflexivity|]. split; [reflexivity|].
  split; [intros k; apply lookup_empty|].
  unfold r, ppt_should_throttle_promotion, child, ppt_mm_fork, ppt_mm_init.
  cbv zeta. cbn [ppt_xarray].
  rewrite xa_load_absent by apply lookup_empty.
  destruct (ppt_enabled cfg); repeat split.
Qed.

Lemma elapsed_after (T d : Z) :
  (ulong (T + d) - T mod 2 ^ 22) mod 2 ^ 22 = d mod 2 ^ 22.
Proof.
  rewrite Zminus_mod_idemp_r.
  rewrite <- Zminus_mod_idemp_l, ulong_mod_mask, Zminus_mod_idemp_l.
  f_equal. lia.
Qed.

Lemma mm_lookup_mk_mm (xa : xarray) (count k : Z) :
  mm_lookup (mk_mm xa count) k = xa !! k.
Proof. reflexivity. Qed.

(** X4: the flags report the verdict.  On every input the check sets
    [TNF_THROTTLED] in the flags exactly when it returns true, and leaves
    them untouched otherwise; a true verdict is only given by an enabled
    engine for a page that has an entry, it leaves the [mm_struct] as it
    was and counts one throttled promotion. *)
Theorem check_flags_report_verdict (cfg : ppt_config) (jiffies : Z)
    (mm : mm_struct) (pfn : Z) (st : ppt_stats) (out_flags : Z) :
  let r := ppt_should_throttle_promotion cfg jiffies mm pfn st out_flags in
  r.2 = (if r.1.1.1 then Z.lor out_flags TNF_THROTTLED else out_flags) /\
  (r.1.1.1 = true ->
     ppt_enabled cfg = true /\ is_Some (mm_lookup mm pfn) /\
     r.1.1.2 = mm /\ r.1.2 = inc_promotions_throttled st).
Proof.
  intros r. subst r. unfold ppt_should_throttle_promotion, mm_lookup, xa_load.
  cbv zeta.
  destruct (ppt_enabled cfg); cbn [negb];
    [|split; [reflexivity | intros H; discriminate H]].
  destruct (ppt_xarray mm) as [xa|];
    [|split; [reflexivity | intros H; discriminate H]].
  destruct (xa !! pfn) as [entry|]; cbv beta iota delta [from_option id].
  2:{ change (negb (0 =? 0) && xa_is_value 0) with false. cbv iota.
      split; [reflexivity | intros H; discriminate H]. }
  destruct (negb (entry =? 0) && xa_is_value entry);
    [|split; [reflexivity | intros H; discriminate H]].
  destruct (PPT_GET_PINGPONG (xa_to_value entry) =? 0);
    [split; [reflexivity | intros H; discriminate H]|].
  match goal with |- context [if ?c then _ else _] => destruct c end.
  - split; [reflexivity|]. intros _. repeat split. eexists; reflexivity.
  - split; [reflexivity | intros H; discriminate H].
Qed.

(** X5: a page that is let through is no longer tracked.  For an enabled
    engine with a live store of encoded records, a check that returns
    false leaves no record at the page's frame number, whichever branch
    let the page through; a check that returns true keeps the record. *)
Theorem check_pass_untracks_page (cfg : ppt_config) (jiffies : Z)
    (mm : mm_struct) (xa : xarray) (pfn : Z) (st : ppt_stats)
    (out_flags : Z) :
  ppt_enabled cfg = true ->
  ppt_xarray mm = Some xa ->
  xa_records_only xa ->
  let r := ppt_should_throttle_promotion cfg jiffies mm pfn st out_flags in
  mm_lookup r.1.1.2 pfn = if r.1.1.1 then xa !! pfn else None.
Proof.
  intros Hen Hxa Hrec r. subst r.
  destruct (xa !! pfn) as [entry|] eqn:Hl.
  - destruct (record_range entry (Hrec pfn entry Hl)) as (v & Hv & ->).
    rewrite (should_throttle_record cfg jiffies mm xa pfn v) by assumption.
    destruct (PPT_GET_PINGPONG v =? 0).
    + cbn [fst snd]. rewrite mm_lookup_mk_mm. apply lookup_delete_eq.
    + match goal with |- context [if ?c then _ else _] => destruct c end;
        cbn [fst snd].
      * unfold mm_lookup. rewrite Hxa. exact Hl.
      * rewrite mm_lookup_mk_mm. apply lookup_delete_eq.
  - unfold ppt_should_throttle_promotion. rewrite Hen, Hxa.
    change (negb true) with false. cbv beta iota zeta.
    rewrite xa_load_absent by exact Hl. cbn [fst snd].
    unfold mm_lookup. rewrite Hxa. exact Hl.
Qed.

(** X6: the entry points keep to the pages they are called on.  The check
    never changes the entry of another frame number; a recorded demotion
    never changes an entry other than those at [old_pfn] and [new_pfn];
    and a recorded promotion changes another entry only by evicting it,
    and then only if it had expired at the clock value the eviction
    reads. *)
Theorem other_pages_untouched (cfg : ppt_config) (jiffies jiffies_evict : Z) (gfp_ok : bool)
    (mm : mm_struct) (pfn old_pfn new_pfn : Z) (st : ppt_stats)
    (out_flags : Z) (k : Z) :
  (k <> pfn ->
   mm_lookup (ppt_should_throttle_promotion cfg jiffies mm pfn st
                out_flags).1.1.2 k = mm_lookup mm k) /\
  (k <> old_pfn -> k <> new_pfn ->
   mm_lookup (ppt_track_demotion cfg jiffies gfp_ok mm old_pfn new_pfn st).1 k
     = mm_lookup mm k) /\
  (k <> old_pfn -> k <> new_pfn ->
   let after :=
     mm_lookup (ppt_track_promotion cfg jiffies jiffies_evict gfp_ok mm
                  old_pfn new_pfn st).1 k in
   after = mm_lookup mm k \/
   (after = None /\
    exists e, mm_lookup mm k = Some e /\
      entry_expired cfg jiffies_evict e = true)).
Proof.
  split; [|split].
  - intros Hk. unfold ppt_should_throttle_promotion. cbv zeta.
    destruct (ppt_enabled cfg); cbn [negb]; [|reflexivity].
    destruct (ppt_xarray mm) as [xa|] eqn:Hxa; [|reflexivity].
    assert (Hdel : mm_lookup (mk_mm (__xa_erase xa pfn)
                     (atomic_dec (ppt_entry_count mm))) k = mm_lookup mm k).
    { unfold mm_lookup at 2. rewrite Hxa, mm_lookup_mk_mm.
      apply lookup_delete_ne. congruence. }
    destruct (negb (xa_load xa pfn =? 0) && xa_is_value (xa_load xa pfn));
      [|reflexivity].
    destruct (PPT_GET_PINGPONG (xa_to_value (xa_load xa pfn)) =? 0);
      [exact Hdel|].
    match goal with |- context [if ?c then _ else _] => destruct c end;
      [reflexivity | exact Hdel].
  - intros Hko Hkn. unfold ppt_track_demotion. cbv zeta.
    destruct (ppt_enabled cfg); cbn [negb]; [|reflexivity].
    destruct (ppt_xarray mm) as [xa|] eqn:Hxa; [|reflexivity].
    assert (Hdel : forall c, mm_lookup (mk_mm (__xa_erase xa old_pfn) c) k
                             = mm_lookup mm k).
    { intros c. unfold mm_lookup at 2. rewrite Hxa, mm_lookup_mk_mm.
      apply lookup_delete_ne. congruence. }
    destruct (negb (xa_load xa old_pfn =? 0)
              && xa_is_value (xa_load xa old_pfn)); [|reflexivity].
    match goal with |- context [if ?c then _ else _] => destruct c end;
      [|apply Hdel].
    unfold __xa_store. destruct gfp_ok; cbn [fst]; [|apply Hdel].
    rewrite mm_lookup_mk_mm, lookup_insert_ne by congruence.
    apply (Hdel 0).
  - intros Hko Hkn after. subst after.
    unfold ppt_track_promotion. cbv zeta.
    destruct (ppt_enabled cfg); cbn [negb]; [|left; reflexivity].
    destruct (ppt_xarray mm) as [xa|] eqn:Hxa.
    2:{ left.
        assert (Hev : ppt_evict_expired_entry cfg jiffies_evict mm = mm).
        { unfold ppt_evict_expired_entry. rewrite Hxa. reflexivity. }
        rewrite Hev.
        destruct (ppt_max_entries_per_mm cfg <=? ulong (ppt_entry_count mm));
          rewrite Hxa; reflexivity. }
    assert (Hmid : exists xa1 c1,
      (if ppt_max_entries_per_mm cfg <=? ulong (ppt_entry_count mm)
       then ppt_evict_expired_entry cfg jiffies_evict mm else mm) = mk_mm xa1 c1 /\
      (xa1 !! k = xa !! k \/
       (xa1 !! k = None /\
        exists e, xa !! k = Some e /\
          entry_expired cfg jiffies_evict e = true))).
    { destruct (ppt_max_entries_per_mm cfg <=? ulong (ppt_entry_count mm)).
      - destruct (evict_spec cfg jiffies_evict mm xa Hxa)
          as [H|(k0 & e0 & Hk0 & He0 & H)]; rewrite H.
        + eexists _, _. split; [reflexivity|]. left. reflexivity.
        + eexists _, _. split; [reflexivity|].
          destruct (Z.eq_dec k k0) as [->|Hne].
          * right. rewrite lookup_delete_eq. split; [reflexivity|].
            exists e0. split; assumption.
          * left. apply lookup_delete_ne. congruence.
      - exists xa, (ppt_entry_count mm). split.
        + destruct mm as [x c]. cbn [ppt_xarray] in Hxa. subst x. reflexivity.
        + left. reflexivity. }
    destruct Hmid as (xa1 & c1 & -> & Hk).
    cbn [mk_mm ppt_xarray ppt_entry_count]. unfold __xa_store, __xa_erase.
    assert (Hfin : mm_lookup
      (if gfp_ok
       then (mk_mm (<[new_pfn := xa_mk_value
                        (PPT_MAKE_VALUE (Z.land jiffies PPT_JIFFIES_MASK) 0)]>
                      (delete old_pfn xa1)) (atomic_inc c1), st)
       else (mk_mm (delete old_pfn xa1) c1, inc_xarray_stores_failed st)).1 k
      = xa1 !! k).
    { destruct gfp_ok; cbn [fst]; rewrite mm_lookup_mk_mm.
      - rewrite lookup_insert_ne, lookup_delete_ne by congruence. reflexivity.
      - rewrite lookup_delete_ne by congruence. reflexivity. }
    unfold mm_lookup at 2 4. rewrite Hxa.
    destruct gfp_ok; cbn [fst] in Hfin |- *; rewrite Hfin; exact Hk.
Qed.

(** X7: a short-lived demotion arms the throttle.  On an enabled engine,
    when a demotion recorded at clock [T] finds a record at [old_pfn]
    younger than the lifetime threshold and its store succeeds, a check of
    [new_pfn] at clock [T + d] returns true exactly when [d mod 2^22] is
    below the throttle threshold; the record stays while the page is
    throttled and is gone once it is let through. *)
Theorem demotion_then_check (cfg : ppt_config) (T d : Z) (mm : mm_struct)
    (xa : xarray) (old_pfn new_pfn v : Z) (st : ppt_stats) (out_flags : Z) :
  ppt_enabled cfg = true ->
  ppt_xarray mm = Some xa ->
  0 <= v < 2 ^ 63 ->
  xa !! old_pfn = Some (xa_mk_value v) ->
  (T - PPT_GET_JIFFIES v) mod 2 ^ 22
    < msecs_to_jiffies (ppt_promotion_lifetime_expiration cfg) ->
  let s1 := ppt_track_demotion cfg T true mm old_pfn new_pfn st in
  let r := ppt_should_throttle_promotion cfg (ulong (T + d)) s1.1 new_pfn
             s1.2 out_flags in
  let record := xa_mk_value (PPT_MAKE_VALUE (Z.land T PPT_JIFFIES_MASK) 1) in
  mm_lookup s1.1 new_pfn = Some record /\
  r.1.1.1 = (d mod 2 ^ 22
             <? msecs_to_jiffies (ppt_promotion_throttle_duration cfg)) /\
  mm_lookup r.1.1.2 new_pfn = if r.1.1.1 then Some record else None.
Proof.
  intros Hen Hxa Hv Hl Hshort s1 r record.
  pose proof (make_value_range (Z.land T PPT_JIFFIES_MASK) 1) as Hr.
  assert (Hs1 : s1 = (mk_mm (<[new_pfn := record]> (delete old_pfn xa))
                            (ppt_entry_count mm),
                      inc_demotions_short_lived st)).
  { unfold s1.
    rewrite (track_demotion_record cfg T true mm xa old_pfn new_pfn v)
      by assumption.
    destruct (Z.ltb_spec ((T - PPT_GET_JIFFIES v) mod 2 ^ 22)
                (msecs_to_jiffies (ppt_promotion_lifetime_expiration cfg)));
      [reflexivity | lia]. }
  assert (Hr1 : r =
    if d mod 2 ^ 22 <? msecs_to_jiffies (ppt_promotion_throttle_duration cfg)
    then (true, s1.1, inc_promotions_throttled s1.2,
          Z.lor out_flags TNF_THROTTLED)
    else (false,
          mk_mm (delete new_pfn (<[new_pfn := record]> (delete old_pfn xa)))
                (atomic_dec (ppt_entry_count s1.1)),
          inc_promotions_allowed s1.2, out_flags)).
  { unfold r.
    rewrite (should_throttle_record cfg (ulong (T + d)) s1.1
               (<[new_pfn := record]> (delete old_pfn xa)) new_pfn
               (PPT_MAKE_VALUE (Z.land T PPT_JIFFIES_MASK) 1)).
    - rewrite get_pingpong_make_value. change (1 mod 2 =? 0) with false.
      cbv iota.
      rewrite get_jiffies_make_value, land_mask_mod, Z.mod_mod by lia.
      rewrite elapsed_after. reflexivity.
    - exact Hen.
    - rewrite Hs1. reflexivity.
    - lia.
    - apply lookup_insert_eq. }
  split; [|split].
  - rewrite Hs1. cbn [fst]. rewrite mm_lookup_mk_mm. apply lookup_insert_eq.
  - rewrite Hr1.
    destruct (d mod 2 ^ 22
              <? msecs_to_jiffies (ppt_promotion_throttle_duration cfg));
      reflexivity.
  - rewrite Hr1.
    destruct (d mod 2 ^ 22
              <? msecs_to_jiffies (ppt_promotion_throttle_duration cfg));
      cbn [fst snd].
    + rewrite Hs1. cbn [fst]. rewrite mm_lookup_mk_mm. apply lookup_insert_eq.
    + rewrite mm_lookup_mk_mm. apply lookup_delete_eq.
Qed.

Lemma track_promotion_stored (cfg : ppt_config) (jiffies jiffies_evict : Z)
    (mm : mm_struct) (xa : xarray) (old_pfn new_pfn : Z) (st : ppt_stats) :
  ppt_enabled cfg = true ->
  ppt_xarray mm = Some xa ->
  exists xa1 c1,
    ppt_track_promotion cfg jiffies jiffies_evict true mm old_pfn new_pfn st =
      (mk_mm (<[new_pfn := xa_mk_value
                   (PPT_MAKE_VALUE (Z.land jiffies PPT_JIFFIES_MASK) 0)]>
                 (delete old_pfn xa1)) c1, st).
Proof.
  intros Hen Hxa. unfold ppt_track_promotion. cbv zeta. rewrite Hen.
  change (negb true) with false. cbv iota.
  assert (Hmid : exists xa1 c1,
    (if ppt_max_entries_per_mm cfg <=? ulong (ppt_entry_count mm)
     then ppt_evict_expired_entry cfg jiffies_evict mm else mm) = mk_mm xa1 c1).
  { destruct (ppt_max_entries_per_mm cfg <=? ulong (ppt_entry_count mm)).
    - destruct (evict_spec cfg jiffies_evict mm xa Hxa)
        as [H|(k0 & e0 & _ & _ & H)]; rewrite H; eexists _, _; reflexivity.
    - exists xa, (ppt_entry_count mm).
      destruct mm as [x c]. cbn [ppt_xarray] in Hxa. subst x. reflexivity. }
  destruct Hmid as (xa1 & c1 & ->).
  exists xa1, (atomic_inc c1). reflexivity.
Qed.

(** X8: a promotion followed by a demotion detects the ping-pong.  On an
    enabled engine with a live store, after a promotion into [new_pfn]
    recorded at clock [T] (store succeeding), a demotion of that page
    recorded at clock [T + d] leaves no record at [new_pfn] unless the
    page is demoted back onto it; when [d mod 2^22] is below the lifetime
    threshold and the store succeeds, the frame [pfn3] it is demoted to
    holds a record with the flag set and the demotion's timestamp, and
    when [d mod 2^22] is at or beyond the threshold nothing is stored at
    [pfn3]. *)
Theorem promotion_then_demotion (cfg : ppt_config) (T d jiffies_evict : Z) (gfp_ok : bool)
    (mm : mm_struct) (xa : xarray) (old_pfn new_pfn pfn3 : Z)
    (st : ppt_stats) :
  ppt_enabled cfg = true ->
  ppt_xarray mm = Some xa ->
  let s1 := ppt_track_promotion cfg T jiffies_evict true mm old_pfn new_pfn st in
  let s2 := ppt_track_demotion cfg (ulong (T + d)) gfp_ok s1.1 new_pfn pfn3
              s1.2 in
  let threshold := msecs_to_jiffies (ppt_promotion_lifetime_expiration cfg) in
  (pfn3 <> new_pfn -> mm_lookup s2.1 new_pfn = None) /\
  (d mod 2 ^ 22 < threshold -> gfp_ok = true ->
   mm_lookup s2.1 pfn3 =
     Some (xa_mk_value
             (PPT_MAKE_VALUE (Z.land (ulong (T + d)) PPT_JIFFIES_MASK) 1))) /\
  (threshold <= d mod 2 ^ 22 -> pfn3 <> new_pfn ->
   mm_lookup s2.1 pfn3 = mm_lookup s1.1 pfn3).
Proof.
  intros Hen Hxa s1 s2 threshold.
  destruct (track_promotion_stored cfg T jiffies_evict mm xa old_pfn new_pfn st Hen Hxa)
    as (xa1 & c1 & Hs1).
  fold s1 in Hs1.
  set (rec0 := PPT_MAKE_VALUE (Z.land T PPT_JIFFIES_MASK) 0) in *.
  set (xa2 := <[new_pfn := xa_mk_value rec0]> (delete old_pfn xa1)) in *.
  pose proof (make_value_range (Z.land T PPT_JIFFIES_MASK) 0) as Hr.
  assert (Hs2 : s2 =
    if d mod 2 ^ 22 <? threshold then
      if gfp_ok then
        (mk_mm (<[pfn3 := xa_mk_value
                   (PPT_MAKE_VALUE (Z.land (ulong (T + d)) PPT_JIFFIES_MASK) 1)]>
                  (delete new_pfn xa2)) (ppt_entry_count s1.1),
         inc_demotions_short_lived s1.2)
      else (mk_mm (delete new_pfn xa2) (atomic_dec (ppt_entry_count s1.1)),
            inc_xarray_stores_failed s1.2)
    else (mk_mm (delete new_pfn xa2) (atomic_dec (ppt_entry_count s1.1)),
          inc_demotions_long_lived s1.2)).
  { unfold s2.
    rewrite (track_demotion_record cfg (ulong (T + d)) gfp_ok s1.1 xa2
               new_pfn pfn3 rec0).
    - unfold rec0 at 1.
      rewrite get_jiffies_make_value, land_mask_mod, Z.mod_mod by lia.
      rewrite elapsed_after. reflexivity.
    - exact Hen.
    - rewrite Hs1. reflexivity.
    - unfold rec0. lia.
    - apply lookup_insert_eq. }
  split; [|split].
  - intros Hne. rewrite Hs2.
    destruct (d mod 2 ^ 22 <? threshold); [destruct gfp_ok|]; cbn [fst];
      rewrite mm_lookup_mk_mm.
    + rewrite lookup_insert_ne by congruence. apply lookup_delete_eq.
    + apply lookup_delete_eq.
    + apply lookup_delete_eq.
  - intros Hlt ->. rewrite Hs2.
    destruct (Z.ltb_spec (d mod 2 ^ 22) threshold); [|lia].
    cbn [fst]. rewrite mm_lookup_mk_mm. apply lookup_insert_eq.
  - intros Hge Hne. rewrite Hs2.
    destruct (Z.ltb_spec (d mod 2 ^ 22) threshold); [lia|].
    cbn [fst]. rewrite mm_lookup_mk_mm, Hs1. cbn [fst].
    rewrite mm_lookup_mk_mm. apply lookup_delete_ne. congruence.
Qed.

(** X17: a check on a frame just recorded as promoted fails open.  On an
    enabled engine with a live store, after a promotion into [new_pfn]
    whose store succeeded, a throttle check on [new_pfn] at any clock
    value returns false, counts one state inconsistency instead of an
    allowed promotion, erases the record and leaves the flags alone. *)
Theorem promotion_then_check (cfg : ppt_config) (T jiffies_evict jiffies : Z)
    (mm : mm_struct) (xa : xarray) (old_pfn new_pfn : Z) (st : ppt_stats)
    (out_flags : Z) :
  ppt_enabled cfg = true ->
  ppt_xarray mm = Some xa ->
  let s1 := ppt_track_promotion cfg T jiffies_evict true mm old_pfn new_pfn st in
  let r := ppt_should_throttle_promotion cfg jiffies s1.1 new_pfn s1.2
             out_flags in
  r.1.1.1 = false /\
  mm_lookup r.1.1.2 new_pfn = None /\
  r.1.2 = inc_state_exceptions st /\
  r.2 = out_flags.
Proof.
  intros Hen Hxa s1 r.
  destruct (track_promotion_stored cfg T jiffies_evict mm xa old_pfn new_pfn st Hen Hxa)
    as (xa1 & c1 & Hs1).
  fold s1 in Hs1.
  pose proof (make_value_range (Z.land T PPT_JIFFIES_MASK) 0) as Hr.
  assert (Hres : r =
    (false,
     mk_mm (delete new_pfn
              (<[new_pfn := xa_mk_value
                   (PPT_MAKE_VALUE (Z.land T PPT_JIFFIES_MASK) 0)]>
                 (delete old_pfn xa1)))
           (atomic_dec (ppt_entry_count s1.1)),
     inc_state_exceptions s1.2, out_flags)).
  { unfold r.
    rewrite (should_throttle_record cfg jiffies s1.1
               (<[new_pfn := xa_mk_value
                    (PPT_MAKE_VALUE (Z.land T PPT_JIFFIES_MASK) 0)]>
                  (delete old_pfn xa1)) new_pfn
               (PPT_MAKE_VALUE (Z.land T PPT_JIFFIES_MASK) 0)).
    - rewrite get_pingpong_make_value. reflexivity.
    - exact Hen.
    - rewrite Hs1. reflexivity.
    - lia.
    - apply lookup_insert_eq. }
  rewrite Hres. cbn [fst snd]. rewrite mm_lookup_mk_mm.
  split; [reflexivity|]. split; [apply lookup_delete_eq|].
  split; [rewrite Hs1; reflexivity | reflexivity].
Qed.

(** ** The two eviction scans *)

Lemma index_le_total : Total index_le.
Proof. intros a b. unfold index_le. lia. Qed.

Lemma index_le_trans : Transitive index_le.
Proof. intros a b c. unfold index_le. lia. Qed.

Lemma xa_for_each_sorted (xa : xarray) :
  StronglySorted index_le (xa_for_each xa).
Proof.
  unfold xa_for_each.
  apply (@StronglySorted_merge_sort _ index_le _ index_le_trans index_le_total).
Qed.

Lemma xa_for_each_keys_nodup (xa : xarray) : NoDup ((xa_for_each xa).*1).
Proof.
  unfold xa_for_each.
  rewrite (merge_sort_Permutation index_le (map_to_list xa)).
  apply NoDup_fst_map_to_list.
Qed.

Lemma xa_for_each_length (xa : xarray) :
  length (xa_for_each xa) = size xa.
Proof.
  unfold xa_for_each.
  rewrite (merge_sort_Permutation index_le (map_to_list xa)).
  apply length_map_to_list.
Qed.

Lemma evict_loop_first (cfg : ppt_config) (jiffies : Z)
    (entries : list (Z * Z)) (xa : xarray) (count : Z) :
  StronglySorted index_le entries ->
  ((forall k e, (k, e) ∈ entries -> entry_expired cfg jiffies e = false) /\
   evict_loop cfg (Z.land jiffies PPT_JIFFIES_MASK) entries xa count
     = (xa, count)) \/
  (exists k e, (k, e) ∈ entries /\ entry_expired cfg jiffies e = true /\
     (forall k' e', (k', e') ∈ entries -> k' < k ->
        entry_expired cfg jiffies e' = false) /\
     evict_loop cfg (Z.land jiffies PPT_JIFFIES_MASK) entries xa count
       = (delete k xa, atomic_dec count)).
Proof.
  induction entries as [|[index entry] rest IH]; intros Hsorted.
  - left. split; [|reflexivity]. intros k e Hk. inversion Hk.
  - apply StronglySorted_inv in Hsorted as [Hrest Hall].
    rewrite evict_loop_visit.
    destruct (entry_expired cfg jiffies entry) eqn:Hexp.
    + right. exists index, entry. split; [left|]. split; [exact Hexp|].
      split; [|reflexivity].
      intros k' e' Hk' Hlt. exfalso.
      apply elem_of_cons in Hk' as [Heq|Hk'].
      * injection Heq as -> ->. lia.
      * rewrite Forall_forall in Hall.
        specialize (Hall (k', e') Hk').
        unfold index_le in Hall. cbn in Hall. lia.
    + destruct (IH Hrest) as [[Hnone Hres]|(k & e & Hk & He & Hfirst & Hres)].
      * left. split; [|exact Hres]. intros k e Hk.
        apply elem_of_cons in Hk as [Heq|Hk].
        -- injection Heq as -> ->. exact Hexp.
        -- apply (Hnone k e Hk).
      * right. exists k, e. split; [right; exact Hk|]. split; [exact He|].
        split; [|exact Hres].
        intros k' e' Hk' Hlt.
        apply elem_of_cons in Hk' as [Heq|Hk'].
        -- injection Heq as -> ->. exact Hexp.
        -- apply (Hfirst k' e' Hk' Hlt).
Qed.

(** X9: the single-entry eviction takes the first expired record.  On a
    live store [ppt_evict_expired_entry] changes nothing when no record
    has expired; otherwise it erases exactly the expired record with the
    lowest frame number, whatever else has expired, and takes one off the
    entry count. *)
Theorem evict_takes_first_expired (cfg : ppt_config) (jiffies : Z)
    (mm : mm_struct) (xa : xarray) :
  ppt_xarray mm = Some xa ->
  INT_MIN < ppt_entry_count mm <= INT_MAX ->
  ((forall k e, xa !! k = Some e -> entry_expired cfg jiffies e = false) /\
   ppt_evict_expired_entry cfg jiffies mm = mk_mm xa (ppt_entry_count mm)) \/
  (exists k e, xa !! k = Some e /\ entry_expired cfg jiffies e = true /\
     (forall k' e', xa !! k' = Some e' -> k' < k ->
        entry_expired cfg jiffies e' = false) /\
     ppt_evict_expired_entry cfg jiffies mm
       = mk_mm (delete k xa) (ppt_entry_count mm - 1)).
Proof.
  intros Hxa Hc. unfold ppt_evict_expired_entry. rewrite Hxa. cbv zeta.
  destruct (evict_loop_first cfg jiffies (xa_for_each xa) xa
              (ppt_entry_count mm) (xa_for_each_sorted xa))
    as [[Hnone Hres]|(k & e & Hk & He & Hfirst & Hres)]; rewrite Hres.
  - left. split; [|reflexivity]. intros k e Hk.
    apply (Hnone k e). apply elem_of_xa_for_each. exact Hk.
  - right. exists k, e. split; [apply elem_of_xa_for_each; exact Hk|].
    split; [exact He|]. split.
    + intros k' e' Hk' Hlt. apply (Hfirst k' e'); [|exact Hlt].
      apply elem_of_xa_for_each. exact Hk'.
    + rewrite atomic_dec_in_range by exact Hc. reflexivity.
Qed.

(** The shrinker scan over the entries still to visit: [n] records are
    erased, all of them expired, the counter and the size go down by [n],
    and the scan stops early only at [nr_to_scan]. *)
Lemma shrink_loop_spec (cfg : ppt_config) (jiffies nr_to_scan : Z)
    (entries : list (Z * Z)) :
  forall (xa : xarray) (count freed : Z),
  NoDup (entries.*1) ->
  (forall k e, (k, e) ∈ entries -> xa !! k = Some e) ->
  0 <= freed ->
  freed + Z.of_nat (length entries) < 2 ^ 64 ->
  Z.of_nat (size xa) <= count <= INT_MAX ->
  exists xa' n,
    shrink_loop cfg (Z.land jiffies PPT_JIFFIES_MASK) nr_to_scan entries xa
      count freed = (xa', count - n, freed + n) /\
    0 <= n /\ freed + n <= Z.max freed nr_to_scan /\
    Z.of_nat (size xa') = Z.of_nat (size xa) - n /\
    (forall k, xa' !! k = xa !! k \/
       (xa' !! k = None /\
        exists e, (k, e) ∈ entries /\ entry_expired cfg jiffies e = true)) /\
    (freed + n < nr_to_scan ->
     forall k e, (k, e) ∈ entries -> xa' !! k = Some e ->
       entry_expired cfg jiffies e = false).
Proof.
  induction entries as [|[index entry] rest IH];
    intros xa count freed Hnd Hin Hf Hlen Hc.
  - exists xa, 0. cbn [shrink_loop]. rewrite !Z.sub_0_r, !Z.add_0_r.
    split; [reflexivity|]. split; [lia|]. split; [lia|]. split; [lia|].
    split; [intros k; left; reflexivity|].
    intros _ k e Hk. inversion Hk.
  - rewrite shrink_loop_visit.
    cbn [fmap list_fmap fst] in Hnd. apply NoDup_cons in Hnd as [Hni Hnd].
    cbn [length] in Hlen.
    destruct (Z.leb_spec nr_to_scan freed) as [Hstop|Hgo].
    + exists xa, 0. rewrite !Z.sub_0_r, !Z.add_0_r.
      split; [reflexivity|]. split; [lia|]. split; [lia|]. split; [lia|].
      split; [intros k; left; reflexivity|]. intros Hlt. lia.
    + assert (Hhead : xa !! index = Some entry) by (apply Hin; left).
      destruct (entry_expired cfg jiffies entry) eqn:Hexp.
      * destruct (size_delete_present xa index entry Hhead) as [Hs H1].
        rewrite atomic_dec_in_range by (unfold INT_MIN, INT_MAX in *; lia).
        rewrite ulong_small by lia.
        destruct (IH (delete index xa) (count - 1) (freed + 1))
          as (xa' & n & Hres & Hn & Hmax & Hsize & Hlook & Hdone).
        -- exact Hnd.
        -- intros k e Hk. rewrite lookup_delete_ne; [apply Hin; right; exact Hk|].
           intros <-. apply Hni.
           apply (list_elem_of_fmap_2 fst rest (index, e) Hk).
        -- lia.
        -- lia.
        -- lia.
        -- exists xa', (n + 1). rewrite Hres.
           split; [f_equal; [f_equal|]; lia|].
           split; [lia|]. split; [lia|]. split; [lia|].
           assert (Hgone : xa' !! index = None).
           { destruct (Hlook index) as [H|[H _]]; [|exact H].
             rewrite H. apply lookup_delete_eq. }
           split.
           ++ intros k. destruct (Z.eq_dec k index) as [->|Hne].
              ** right. split; [exact Hgone|]. exists entry.
                 split; [left | exact Hexp].
              ** destruct (Hlook k) as [H|[H (e & He & Hx)]].
                 --- left. rewrite H. apply lookup_delete_ne. congruence.
                 --- right. split; [exact H|]. exists e.
                     split; [right; exact He | exact Hx].
           ++ intros Hlt k e Hk Hl.
              apply elem_of_cons in Hk as [Heq|Hk].
              ** injection Heq as -> ->. rewrite Hgone in Hl. discriminate.
              ** apply (Hdone ltac:(lia) k e Hk Hl).
      * destruct (IH xa count freed)
          as (xa' & n & Hres & Hn & Hmax & Hsize & Hlook & Hdone).
        -- exact Hnd.
        -- intros k e Hk. apply Hin. right. exact Hk.
        -- lia.
        -- lia.
        -- lia.
        -- exists xa', n. rewrite Hres. split; [reflexivity|].
           split; [lia|]. split; [lia|]. split; [lia|]. split.
           ++ intros k. destruct (Hlook k) as [H|[H (e & He & Hx)]].
              ** left. exact H.
              ** right. split; [exact H|]. exists e.
                 split; [right; exact He | exact Hx].
           ++ intros Hlt k e Hk Hl.
              apply elem_of_cons in Hk as [Heq|Hk].
              ** injection Heq as -> ->. exact Hexp.
              ** apply (Hdone Hlt k e Hk Hl).
Qed.

Lemma shrink_live (cfg : ppt_config) (jiffies nr_to_scan : Z)
    (mm : mm_struct) (xa : xarray) :
  ppt_xarray mm = Some xa ->
  Z.of_nat (size xa) <= ppt_entry_count mm <= INT_MAX ->
  exists xa' freed,
    ppt_shrink_mm_xarray cfg jiffies mm nr_to_scan
      = (mk_mm xa' (ppt_entry_count mm - freed), freed) /\
    0 <= freed <= Z.max 0 nr_to_scan /\
    Z.of_nat (size xa') = Z.of_nat (size xa) - freed /\
    (forall k, xa' !! k = xa !! k \/
       (xa' !! k = None /\
        exists e, xa !! k = Some e /\ entry_expired cfg jiffies e = true)) /\
    (freed < nr_to_scan ->
     forall k e, xa' !! k = Some e -> entry_expired cfg jiffies e = false).
Proof.
  intros Hxa Hc. unfold ppt_shrink_mm_xarray. rewrite Hxa. cbv zeta.
  destruct (shrink_loop_spec cfg jiffies nr_to_scan (xa_for_each xa) xa
              (ppt_entry_count mm) 0)
    as (xa' & n & Hres & Hn & Hmax & Hsize & Hlook & Hdone).
  - apply xa_for_each_keys_nodup.
  - intros k e. apply elem_of_xa_for_each.
  - lia.
  - rewrite xa_for_each_length. unfold INT_MAX in Hc. lia.
  - exact Hc.
  - rewrite Hres. exists xa', n. rewrite Z.add_0_l in *.
    split; [reflexivity|]. split; [lia|]. split; [exact Hsize|]. split.
    + intros k. destruct (Hlook k) as [H|[H (e & He & Hx)]].
      * left. exact H.
      * right. split; [exact H|]. exists e.
        split; [apply elem_of_xa_for_each; exact He | exact Hx].
    + intros Hlt k e Hl.
      destruct (Hlook k) as [H|[H _]]; [|rewrite H in Hl; discriminate].
      apply (Hdone Hlt k e); [|exact Hl].
      apply elem_of_xa_for_each. rewrite <- H. exact Hl.
Qed.

(** X10: the shrinker scan of one owner frees only expired records, and
    no more than asked.  On a live store whose counter covers its records,
    [ppt_shrink_mm_xarray] returns a number [freed] between 0 and
    [nr_to_scan]; exactly [freed] records are gone and the entry count is
    down by [freed]; every record that is gone had expired and every other
    record is as it was; and when fewer than [nr_to_scan] were freed, no
    expired record is left. *)
Theorem shrink_frees_only_expired (cfg : ppt_config) (jiffies nr_to_scan : Z)
    (mm : mm_struct) (xa : xarray) :
  ppt_xarray mm = Some xa ->
  Z.of_nat (size xa) <= ppt_entry_count mm <= INT_MAX ->
  0 <= nr_to_scan ->
  exists xa' freed,
    ppt_shrink_mm_xarray cfg jiffies mm nr_to_scan
      = (mk_mm xa' (ppt_entry_count mm - freed), freed) /\
    0 <= freed <= nr_to_scan /\
    Z.of_nat (size xa') = Z.of_nat (size xa) - freed /\
    (forall k, xa' !! k = xa !! k \/
       (xa' !! k = None /\
        exists e, xa !! k = Some e /\ entry_expired cfg jiffies e = true)) /\
    (freed < nr_to_scan ->
     forall k e, xa' !! k = Some e -> entry_expired cfg jiffies e = false).
Proof.
  intros Hxa Hc Hnr.
  destruct (shrink_live cfg jiffies nr_to_scan mm xa Hxa Hc)
    as (xa' & freed & Hres & Hf & Hrest).
  exists xa', freed. split; [exact Hres|]. split; [lia | exact Hrest].
Qed.

(** ** The shrinker over the registry *)

Lemma shrink_counted (cfg : ppt_config) (jiffies nr_to_scan : Z)
    (mm : mm_struct) :
  mm_counted mm ->
  0 <= nr_to_scan ->
  exists mm' n,
    ppt_shrink_mm_xarray cfg jiffies mm nr_to_scan = (mm', n) /\
    0 <= n <= nr_to_scan /\ mm_counted mm' /\
    ppt_entry_count mm' = ppt_entry_count mm - n /\
    mm_records mm' = mm_records mm - n.
Proof.
  intros [Hrec Hmax] Hnr. unfold mm_records in Hrec.
  destruct (ppt_xarray mm) as [xa|] eqn:Hxa.
  - destruct (shrink_live cfg jiffies nr_to_scan mm xa Hxa ltac:(lia))
      as (xa' & freed & Hres & Hf & Hsize & _).
    eexists _, freed. split; [exact Hres|].
    unfold mm_counted, mm_records. rewrite Hxa.
    cbn [mk_mm ppt_xarray ppt_entry_count].
    repeat split; lia.
  - exists mm, 0. unfold ppt_shrink_mm_xarray. rewrite Hxa.
    split; [reflexivity|]. unfold mm_counted, mm_records. rewrite Hxa.
    repeat split; lia.
Qed.

Lemma count_total_bounds (mms : list mm_struct) :
  Forall mm_counted mms ->
  0 <= records_total mms <= count_total mms /\
  count_total mms <= Z.of_nat (length mms) * INT_MAX.
Proof.
  induction 1 as [|mm mms [Hrec Hmax] _ IH].
  - cbn. lia.
  - cbn [records_total count_total fold_right length] in *.
    fold (records_total mms) (count_total mms) in *.
    rewrite Nat2Z.inj_succ. unfold INT_MAX in *. lia.
Qed.

Lemma shrinker_count_fold (mms : list mm_struct) :
  forall total : Z,
  Forall mm_counted mms ->
  0 <= total ->
  total + Z.of_nat (length mms) * INT_MAX < 2 ^ 64 ->
  fold_left (fun total mm => ulong (total + ulong (ppt_entry_count mm)))
            mms total
  = total + count_total mms.
Proof.
  induction mms as [|mm mms IH]; intros total Hall Ht Hb.
  - cbn. lia.
  - apply Forall_cons in Hall as [[Hrec Hmax] Hall].
    cbn [fold_left count_total fold_right length] in *.
    fold (count_total mms).
    rewrite Nat2Z.inj_succ in Hb. unfold INT_MAX in *.
    rewrite (ulong_small (ppt_entry_count mm)) by lia.
    rewrite ulong_small by lia.
    rewrite IH; [lia | exact Hall | lia | lia].
Qed.

Lemma shrinker_count_is_total (mms : list mm_struct) :
  Forall mm_counted mms ->
  Z.of_nat (length mms) <= 2 ^ 32 ->
  ppt_shrinker_count mms = count_total mms.
Proof.
  intros Hall Hlen. unfold ppt_shrinker_count.
  rewrite shrinker_count_fold; [lia | exact Hall | lia |].
  unfold INT_MAX. lia.
Qed.

Lemma shrinker_scan_loop_spec (cfg : ppt_config) (jiffies to_scan : Z)
    (mms : list mm_struct) :
  forall freed : Z,
  Forall mm_counted mms ->
  0 <= freed ->
  to_scan < 2 ^ 64 ->
  exists mms' freed',
    shrinker_scan_loop cfg jiffies to_scan mms freed = (mms', freed') /\
    freed <= freed' <= Z.max freed to_scan /\
    length mms' = length mms /\
    Forall mm_counted mms' /\
    count_total mms' = count_total mms - (freed' - freed) /\
    records_total mms' = records_total mms - (freed' - freed).
Proof.
  induction mms as [|mm mms IH]; intros freed Hall Hf Hts.
  - exists [], freed. cbn. repeat split; try lia. constructor.
  - cbn [shrinker_scan_loop].
    destruct (Z.leb_spec to_scan freed) as [Hstop|Hgo].
    + exists (mm :: mms), freed. repeat split; try lia. exact Hall.
    + apply Forall_cons in Hall as [Hmm Hall].
      rewrite (ulong_small (to_scan - freed)) by lia.
      destruct (shrink_counted cfg jiffies (to_scan - freed) mm Hmm
                  ltac:(lia)) as (mm' & n & -> & Hn & Hmm' & Hc & Hr).
      rewrite (ulong_small (freed + n)) by lia.
      destruct (IH (freed + n) Hall ltac:(lia) Hts)
        as (mms' & freed' & -> & Hfr & Hlen & Hall' & Hct & Hrt).
      exists (mm' :: mms'), freed'.
      cbn [length count_total records_total fold_right].
      fold (count_total mms') (count_total mms)
           (records_total mms') (records_total mms).
      split; [reflexivity|]. split; [lia|]. split; [lia|].
      split; [constructor; assumption|]. split; lia.
Qed.

(** X11: the shrinker scan over the registry frees no more than asked and
    keeps the count in step.  For a registry of at most 2^32 owners whose
    counters each cover their records, [ppt_shrinker_scan] returns a number [freed] between 0
    and [nr_to_scan], visits the owners in place (none added or dropped),
    removes exactly [freed] records in all, and a following
    [ppt_shrinker_count] reports exactly [freed] fewer entries than one
    made before the scan. *)
Theorem shrinker_scan_accounts (cfg : ppt_config) (jiffies nr_to_scan : Z)
    (ppt_mm_list : list mm_struct) :
  Forall mm_counted ppt_mm_list ->
  Z.of_nat (length ppt_mm_list) <= 2 ^ 32 ->
  0 <= nr_to_scan < 2 ^ 64 ->
  exists list' freed,
    ppt_shrinker_scan cfg jiffies ppt_mm_list nr_to_scan = (list', freed) /\
    0 <= freed <= nr_to_scan /\
    length list' = length ppt_mm_list /\
    Forall mm_counted list' /\
    records_total list' = records_total ppt_mm_list - freed /\
    ppt_shrinker_count list' = ppt_shrinker_count ppt_mm_list - freed.
Proof.
  intros Hall Hlen Hnr. unfold ppt_shrinker_scan. cbv zeta.
  destruct (shrinker_scan_loop_spec cfg jiffies nr_to_scan ppt_mm_list 0
              Hall ltac:(lia) ltac:(lia))
    as (list' & freed & Hres & Hf & Hl & Hall' & Hct & Hrt).
  exists list', freed. split; [exact Hres|]. split; [lia|].
  split; [exact Hl|]. split; [exact Hall'|]. split; [lia|].
  rewrite !shrinker_count_is_total by (try assumption; lia). lia.
Qed.

(** X12: the reclaimable count never undercounts.  For a registry of at
    most 2^32 owners whose counters each cover their records,
    [ppt_shrinker_count] is the sum
    of the entry counters, without wrap-around, and is at least the number
    of records actually held by all the stores. *)
Theorem shrinker_count_covers_records (ppt_mm_list : list mm_struct) :
  Forall mm_counted ppt_mm_list ->
  Z.of_nat (length ppt_mm_list) <= 2 ^ 32 ->
  ppt_shrinker_count ppt_mm_list = count_total ppt_mm_list /\
  0 <= records_total ppt_mm_list <= ppt_shrinker_count ppt_mm_list.
Proof.
  intros Hall Hlen.
  rewrite shrinker_count_is_total by assumption.
  split; [reflexivity|]. apply count_total_bounds. exact Hall.
Qed.

(** ** Invariants of a run of all the operations *)

Lemma records_only_delete (xa : xarray) (k : Z) :
  xa_records_only xa -> xa_records_only (delete k xa).
Proof.
  intros Hrec k' e Hl. apply lookup_delete_Some in Hl as [_ Hl].
  exact (Hrec k' e Hl).
Qed.

Lemma records_only_insert (xa : xarray) (k timestamp flag : Z) :
  flag = 0 \/ flag = 1 ->
  xa_records_only xa ->
  xa_records_only (<[k := xa_mk_value (PPT_MAKE_VALUE timestamp flag)]> xa).
Proof.
  intros Hflag Hrec k' e Hl. apply lookup_insert_Some in Hl as [[_ <-]|[_ Hl]].
  - exists timestamp, flag. split; [exact Hflag | reflexivity].
  - exact (Hrec k' e Hl).
Qed.

Lemma mm_tracked_mk (xa : xarray) (count : Z) :
  xa_records_only xa ->
  Z.of_nat (size xa) <= count <= INT_MAX ->
  mm_tracked (mk_mm xa count).
Proof. intros Hrec Hc. exists xa. split; [reflexivity|]. split; assumption. Qed.

Lemma mm_tracked_eta (mm : mm_struct) (xa : xarray) :
  ppt_xarray mm = Some xa -> mm = mk_mm xa (ppt_entry_count mm).
Proof. intros Hxa. destruct mm as [x c]. cbn in Hxa. subst x. reflexivity. Qed.

Lemma check_tracked (cfg : ppt_config) (jiffies : Z) (mm : mm_struct)
    (pfn : Z) (st : ppt_stats) (out_flags : Z) :
  mm_tracked mm ->
  let mm' :=
    (ppt_should_throttle_promotion cfg jiffies mm pfn st out_flags).1.1.2 in
  mm_tracked mm' /\ ppt_entry_count mm' <= ppt_entry_count mm.
Proof.
  intros (xa & Hxa & Hrec & Hc) mm'. subst mm'.
  assert (Hsame : mm_tracked mm /\ ppt_entry_count mm <= ppt_entry_count mm).
  { split; [exists xa; repeat split; assumption || lia | lia]. }
  destruct (ppt_enabled cfg) eqn:Hen.
  2:{ unfold ppt_should_throttle_promotion. rewrite Hen. exact Hsame. }
  destruct (xa !! pfn) as [entry|] eqn:Hl.
  - destruct (record_range entry (Hrec pfn entry Hl)) as (v & Hv & ->).
    rewrite (should_throttle_record cfg jiffies mm xa pfn v) by assumption.
    destruct (size_delete_present xa pfn _ Hl) as [Hs H1].
    assert (Hdel : mm_tracked (mk_mm (delete pfn xa)
                                 (atomic_dec (ppt_entry_count mm))) /\
                   atomic_dec (ppt_entry_count mm) <= ppt_entry_count mm).
    { rewrite atomic_dec_in_range by (unfold INT_MIN, INT_MAX in *; lia).
      split; [|lia]. apply mm_tracked_mk; [|lia].
      apply records_only_delete. exact Hrec. }
    destruct (PPT_GET_PINGPONG v =? 0); [exact Hdel|].
    match goal with |- context [if ?c then _ else _] => destruct c end;
      [exact Hsame | exact Hdel].
  - unfold ppt_should_throttle_promotion. rewrite Hen, Hxa.
    change (negb true) with false. cbv beta iota zeta.
    rewrite xa_load_absent by exact Hl. exact Hsame.
Qed.

Lemma demotion_tracked (cfg : ppt_config) (jiffies : Z) (gfp_ok : bool)
    (mm : mm_struct) (old_pfn new_pfn : Z) (st : ppt_stats) :
  mm_tracked mm ->
  let mm' := (ppt_track_demotion cfg jiffies gfp_ok mm old_pfn new_pfn st).1 in
  mm_tracked mm' /\ ppt_entry_count mm' <= ppt_entry_count mm.
Proof.
  intros (xa & Hxa & Hrec & Hc) mm'. subst mm'.
  assert (Hsame : mm_tracked mm /\ ppt_entry_count mm <= ppt_entry_count mm).
  { split; [exists xa; repeat split; assumption || lia | lia]. }
  destruct (ppt_enabled cfg) eqn:Hen.
  2:{ unfold ppt_track_demotion. rewrite Hen. exact Hsame. }
  destruct (xa !! old_pfn) as [entry|] eqn:Hl.
  - destruct (record_range entry (Hrec old_pfn entry Hl)) as (v & Hv & ->).
    rewrite (track_demotion_record cfg jiffies gfp_ok mm xa old_pfn new_pfn v)
      by assumption.
    destruct (size_delete_present xa old_pfn _ Hl) as [Hs H1].
    assert (Hdel : mm_tracked (mk_mm (delete old_pfn xa)
                                 (atomic_dec (ppt_entry_count mm))) /\
                   atomic_dec (ppt_entry_count mm) <= ppt_entry_count mm).
    { rewrite atomic_dec_in_range by (unfold INT_MIN, INT_MAX in *; lia).
      split; [|lia]. apply mm_tracked_mk; [|lia].
      apply records_only_delete. exact Hrec. }
    match goal with |- context [if ?c then _ else _] => destruct c end;
      [|exact Hdel].
    destruct gfp_ok; [|exact Hdel]. cbn [fst mk_mm ppt_entry_count].
    split; [|lia]. apply mm_tracked_mk.
    + apply records_only_insert; [right; reflexivity|].
      apply records_only_delete. exact Hrec.
    + pose proof (size_insert_le (delete old_pfn xa) new_pfn
        (xa_mk_value (PPT_MAKE_VALUE (Z.land jiffies PPT_JIFFIES_MASK) 1))).
      lia.
  - unfold ppt_track_demotion. rewrite Hen, Hxa.
    change (negb true) with false. cbv beta iota zeta.
    rewrite xa_load_absent by exact Hl. exact Hsame.
Qed.

Lemma promotion_tracked (cfg : ppt_config) (jiffies jiffies_evict : Z) (gfp_ok : bool)
    (mm : mm_struct) (old_pfn new_pfn : Z) (st : ppt_stats) :
  mm_tracked mm ->
  ppt_entry_count mm < INT_MAX ->
  let mm' := (ppt_track_promotion cfg jiffies jiffies_evict gfp_ok mm old_pfn new_pfn st).1 in
  mm_tracked mm' /\ ppt_entry_count mm' <= ppt_entry_count mm + 1.
Proof.
  intros (xa & Hxa & Hrec & Hc) Hlt mm'. subst mm'.
  unfold ppt_track_promotion. cbv zeta.
  destruct (ppt_enabled cfg); cbn [negb].
  2:{ cbn [fst]. split; [exists xa; repeat split; assumption || lia | lia]. }
  assert (Hmid : exists xa1 c1,
    (if ppt_max_entries_per_mm cfg <=? ulong (ppt_entry_count mm)
     then ppt_evict_expired_entry cfg jiffies_evict mm else mm) = mk_mm xa1 c1 /\
    xa_records_only xa1 /\
    Z.of_nat (size xa1) <= c1 <= ppt_entry_count mm).
  { destruct (ppt_max_entries_per_mm cfg <=? ulong (ppt_entry_count mm)).
    - destruct (evict_spec cfg jiffies_evict mm xa Hxa)
        as [H|(k0 & e0 & Hk0 & _ & H)]; rewrite H.
      + eexists _, _. split; [reflexivity|]. split; [exact Hrec | lia].
      + destruct (size_delete_present xa k0 e0 Hk0) as [Hs H1].
        eexists _, _. split; [reflexivity|].
        split; [apply records_only_delete; exact Hrec|].
        rewrite atomic_dec_in_range by (unfold INT_MIN, INT_MAX in *; lia).
        lia.
    - exists xa, (ppt_entry_count mm).
      split; [apply mm_tracked_eta; exact Hxa|]. split; [exact Hrec | lia]. }
  destruct Hmid as (xa1 & c1 & -> & Hrec1 & Hc1).
  cbn [mk_mm ppt_xarray ppt_entry_count]. unfold __xa_store, __xa_erase.
  pose proof (size_delete_le xa1 old_pfn) as Hd.
  destruct gfp_ok; cbn [fst mk_mm ppt_entry_count].
  - rewrite atomic_inc_in_range by (unfold INT_MIN, INT_MAX in *; lia).
    split; [|lia]. apply mm_tracked_mk.
    + apply records_only_insert; [left; reflexivity|].
      apply records_only_delete. exact Hrec1.
    + pose proof (size_insert_le (delete old_pfn xa1) new_pfn
        (xa_mk_value (PPT_MAKE_VALUE (Z.land jiffies PPT_JIFFIES_MASK) 0))).
      lia.
  - split; [|lia]. apply mm_tracked_mk; [|lia].
    apply records_only_delete. exact Hrec1.
Qed.

Lemma shrink_tracked (cfg : ppt_config) (jiffies nr_to_scan : Z)
    (mm : mm_struct) :
  mm_tracked mm ->
  let mm' := (ppt_shrink_mm_xarray cfg jiffies mm nr_to_scan).1 in
  mm_tracked mm' /\ ppt_entry_count mm' <= ppt_entry_count mm.
Proof.
  intros (xa & Hxa & Hrec & Hc) mm'. subst mm'.
  destruct (shrink_live cfg jiffies nr_to_scan mm xa Hxa Hc)
    as (xa' & freed & -> & Hf & Hsize & Hlook & _).
  cbn [fst mk_mm ppt_entry_count]. split; [|lia].
  apply mm_tracked_mk; [|lia].
  intros k e Hl. destruct (Hlook k) as [H|[H _]].
  - apply (Hrec k e). rewrite <- H. exact Hl.
  - rewrite H in Hl. discriminate.
Qed.

Lemma count_ops_cons (p : ppt_op -> bool) (op : ppt_op) (ops : list ppt_op) :
  count_ops p (op :: ops) = (if p op then 1 else 0) + count_ops p ops.
Proof.
  unfold count_ops. cbn [List.filter].
  destruct (p op); cbn [length]; lia.
Qed.

Lemma count_ops_nonneg (p : ppt_op -> bool) (ops : list ppt_op) :
  0 <= count_ops p ops.
Proof. unfold count_ops. lia. Qed.

Lemma ops_run_tracked (cfg : ppt_config) (ops : list ppt_op) :
  forall (s : mm_struct * ppt_stats) (bound : Z),
  mm_tracked s.1 ->
  ppt_entry_count s.1 <= bound ->
  bound + count_ops op_is_promote ops <= INT_MAX ->
  mm_tracked (ppt_ops_run cfg ops s).1 /\
  ppt_entry_count (ppt_ops_run cfg ops s).1
    <= bound + count_ops op_is_promote ops.
Proof.
  induction ops as [|op ops IH]; intros s bound Htr Hb Hmax.
  - cbn [ppt_ops_run fold_left]. unfold count_ops. cbn. split; [exact Htr|lia].
  - rewrite count_ops_cons in Hmax |- *.
    pose proof (count_ops_nonneg op_is_promote ops) as Hnn.
    change (ppt_ops_run cfg (op :: ops) s)
      with (ppt_ops_run cfg ops (ppt_op_step cfg s op)).
    destruct op as [j p | j je g o n | j g o n | j nr];
      cbn [op_is_promote] in Hmax |- *.
    + destruct (check_tracked cfg j s.1 p s.2 0 Htr) as [Htr' Hc'].
      destruct (IH (ppt_op_step cfg s (Op_check j p)) bound) as [H1 H2];
        [exact Htr' | cbn [ppt_op_step fst]; lia | lia |].
      split; [exact H1 | lia].
    + destruct (promotion_tracked cfg j je g s.1 o n s.2 Htr ltac:(lia))
        as [Htr' Hc'].
      destruct (IH (ppt_op_step cfg s (Op_promote j je g o n)) (bound + 1))
        as [H1 H2]; [exact Htr' | cbn [ppt_op_step]; lia | lia |].
      split; [exact H1 | lia].
    + destruct (demotion_tracked cfg j g s.1 o n s.2 Htr) as [Htr' Hc'].
      destruct (IH (ppt_op_step cfg s (Op_demote j g o n)) bound) as [H1 H2];
        [exact Htr' | cbn [ppt_op_step]; lia | lia |].
      split; [exact H1 | lia].
    + destruct (shrink_tracked cfg j nr s.1 Htr) as [Htr' Hc'].
      destruct (IH (ppt_op_step cfg s (Op_shrink j nr)) bound) as [H1 H2];
        [exact Htr' | cbn [ppt_op_step fst]; lia | lia |].
      split; [exact H1 | lia].
Qed.

(** X13: what every run of the operations keeps.  After any sequence of
    throttle checks, recorded promotions, recorded demotions and shrinker
    scans on a freshly initialised owner, the store is live, every entry
    in it is a value entry holding an encoded record with flag 0 or 1, and
    the entry count is at least the number of records and at most the
    number of promotions recorded; in particular it never goes negative. *)
Theorem ops_keep_store_tracked (cfg : ppt_config) (ops : list ppt_op)
    (mm : mm_struct) (st : ppt_stats) :
  count_ops op_is_promote ops <= INT_MAX ->
  let s := ppt_ops_run cfg ops (ppt_mm_init true mm, st) in
  mm_tracked s.1 /\
  0 <= mm_records s.1 <= ppt_entry_count s.1 /\
  ppt_entry_count s.1 <= count_ops op_is_promote ops.
Proof.
  intros Hmax s.
  destruct (ops_run_tracked cfg ops (ppt_mm_init true mm, st) 0) as [Htr Hc].
  - apply mm_tracked_mk.
    + intros k e Hl. rewrite lookup_empty in Hl. discriminate.
    + rewrite map_size_empty. unfold INT_MAX. lia.
  - cbn. lia.
  - lia.
  - fold s in Htr, Hc. split; [exact Htr|].
    destruct Htr as (xa & Hxa & _ & Hsz). unfold mm_records. rewrite Hxa.
    lia.
Qed.

(** ** The statistics *)

Lemma check_counts_one (cfg : ppt_config) (jiffies : Z) (mm : mm_struct)
    (pfn : Z) (st : ppt_stats) (out_flags : Z) :
  ppt_enabled cfg = true ->
  is_Some (ppt_xarray mm) ->
  let r := ppt_should_throttle_promotion cfg jiffies mm pfn st out_flags in
  is_Some (ppt_xarray r.1.1.2) /\
  (r.1.2 = inc_promotions_allowed st \/
   r.1.2 = inc_promotions_throttled st \/
   r.1.2 = inc_state_exceptions st).
Proof.
  intros Hen [xa Hxa] r. subst r.
  unfold ppt_should_throttle_promotion. rewrite Hen, Hxa.
  change (negb true) with false. cbv beta iota zeta.
  destruct (negb (xa_load xa pfn =? 0) && xa_is_value (xa_load xa pfn)).
  - destruct (PPT_GET_PINGPONG (xa_to_value (xa_load xa pfn)) =? 0).
    + split; [eexists; reflexivity | right; right; reflexivity].
    + match goal with |- context [if ?c then _ else _] => destruct c end.
      * split; [cbn [fst snd]; rewrite Hxa; eexists; reflexivity
               | right; left; reflexivity].
      * split; [eexists; reflexivity | left; reflexivity].
  - split; [cbn [fst snd]; rewrite Hxa; eexists; reflexivity
           | left; reflexivity].
Qed.

Lemma evict_keeps_live (cfg : ppt_config) (jiffies : Z) (mm : mm_struct) :
  is_Some (ppt_xarray mm) ->
  is_Some (ppt_xarray (ppt_evict_expired_entry cfg jiffies mm)).
Proof.
  intros [xa Hxa].
  destruct (evict_spec cfg jiffies mm xa Hxa) as [H|(k & e & _ & _ & H)];
    rewrite H; eexists; reflexivity.
Qed.

Lemma promotion_counts (cfg : ppt_config) (jiffies jiffies_evict : Z) (gfp_ok : bool)
    (mm : mm_struct) (old_pfn new_pfn : Z) (st : ppt_stats) :
  is_Some (ppt_xarray mm) ->
  let s := ppt_track_promotion cfg jiffies jiffies_evict gfp_ok mm old_pfn new_pfn st in
  is_Some (ppt_xarray s.1) /\
  (s.2 = st \/ s.2 = inc_xarray_stores_failed st).
Proof.
  intros Hlive s. subst s. unfold ppt_track_promotion. cbv zeta.
  destruct (ppt_enabled cfg); cbn [negb];
    [|split; [exact Hlive | left; reflexivity]].
  assert (Hmid : is_Some (ppt_xarray
    (if ppt_max_entries_per_mm cfg <=? ulong (ppt_entry_count mm)
     then ppt_evict_expired_entry cfg jiffies_evict mm else mm))).
  { destruct (ppt_max_entries_per_mm cfg <=? ulong (ppt_entry_count mm));
      [apply evict_keeps_live|]; exact Hlive. }
  destruct Hmid as [xa1 ->]. unfold __xa_store.
  destruct gfp_ok; cbn [fst snd].
  - split; [eexists; reflexivity | left; reflexivity].
  - split; [eexists; reflexivity | right; reflexivity].
Qed.

Lemma demotion_counts (cfg : ppt_config) (jiffies : Z) (gfp_ok : bool)
    (mm : mm_struct) (old_pfn new_pfn : Z) (st : ppt_stats) :
  is_Some (ppt_xarray mm) ->
  let s := ppt_track_demotion cfg jiffies gfp_ok mm old_pfn new_pfn st in
  is_Some (ppt_xarray s.1) /\
  (s.2 = st \/ s.2 = inc_demotions_short_lived st \/
   s.2 = inc_demotions_long_lived st \/ s.2 = inc_xarray_stores_failed st).
Proof.
  intros Hlive s. subst s. unfold ppt_track_demotion. cbv zeta.
  destruct (ppt_enabled cfg); cbn [negb];
    [|split; [exact Hlive | left; reflexivity]].
  destruct Hlive as [xa Hxa]. rewrite Hxa.
  destruct (negb (xa_load xa old_pfn =? 0)
            && xa_is_value (xa_load xa old_pfn)).
  - match goal with |- context [if ?c then _ else _] => destruct c end.
    + unfold __xa_store. destruct gfp_ok; cbn [fst snd].
      * split; [eexists; reflexivity | right; left; reflexivity].
      * split; [eexists; reflexivity | right; right; right; reflexivity].
    + split; [eexists; reflexivity | right; right; left; reflexivity].
  - split; [cbn [fst]; rewrite Hxa; eexists; reflexivity | left; reflexivity].
Qed.

Lemma shrink_keeps_live (cfg : ppt_config) (jiffies nr_to_scan : Z)
    (mm : mm_struct) :
  is_Some (ppt_xarray mm) ->
  is_Some (ppt_xarray (ppt_shrink_mm_xarray cfg jiffies mm nr_to_scan).1).
Proof.
  intros [xa Hxa]. unfold ppt_shrink_mm_xarray. rewrite Hxa. cbv zeta.
  destruct (shrink_loop cfg (Z.land jiffies PPT_JIFFIES_MASK) nr_to_scan
              (xa_for_each xa) xa (ppt_entry_count mm) 0) as [[xa' c'] f].
  eexists; reflexivity.
Qed.

Lemma ops_run_checks (cfg : ppt_config) (ops : list ppt_op) :
  forall s : mm_struct * ppt_stats,
  ppt_enabled cfg = true ->
  is_Some (ppt_xarray s.1) ->
  0 <= ppt_stats_promotions_allowed s.2 ->
  0 <= ppt_stats_promotions_throttled s.2 ->
  0 <= ppt_stats_state_exceptions s.2 ->
  checks_counted s.2 + count_ops op_is_check ops < S64_MAX ->
  let f := ppt_ops_run cfg ops s in
  0 <= ppt_stats_promotions_allowed f.2 /\
  0 <= ppt_stats_promotions_throttled f.2 /\
  0 <= ppt_stats_state_exceptions f.2 /\
  checks_counted f.2 = checks_counted s.2 + count_ops op_is_check ops.
Proof.
  induction ops as [|op ops IH]; intros s Hen Hlive Ha Ht He Hb f; subst f.
  - cbn [ppt_ops_run fold_left]. unfold count_ops. cbn [List.filter length].
    repeat split; try assumption. lia.
  - rewrite count_ops_cons in Hb |- *.
    pose proof (count_ops_nonneg op_is_check ops) as Hnn.
    change (ppt_ops_run cfg (op :: ops) s)
      with (ppt_ops_run cfg ops (ppt_op_step cfg s op)).
    assert (Hstep :
      is_Some (ppt_xarray (ppt_op_step cfg s op).1) /\
      0 <= ppt_stats_promotions_allowed (ppt_op_step cfg s op).2 /\
      0 <= ppt_stats_promotions_throttled (ppt_op_step cfg s op).2 /\
      0 <= ppt_stats_state_exceptions (ppt_op_step cfg s op).2 /\
      checks_counted (ppt_op_step cfg s op).2
        = checks_counted s.2 + (if op_is_check op then 1 else 0)).
    { unfold checks_counted in *.
      destruct op as [j p | j je g o n | j g o n | j nr];
        cbn [op_is_check ppt_op_step fst snd] in *.
      - destruct (check_counts_one cfg j s.1 p s.2 0 Hen Hlive)
          as [Hl [-> | [-> | ->]]];
          (split; [exact Hl|]);
          cbn [inc_promotions_allowed inc_promotions_throttled
               inc_state_exceptions ppt_stats_promotions_allowed
               ppt_stats_promotions_throttled ppt_stats_state_exceptions];
          rewrite atomic64_inc_in_range by lia; lia.
      - destruct (promotion_counts cfg j je g s.1 o n s.2 Hlive)
          as [Hl [-> | ->]]; (split; [exact Hl|]);
          cbn [inc_xarray_stores_failed ppt_stats_promotions_allowed
               ppt_stats_promotions_throttled ppt_stats_state_exceptions];
          lia.
      - destruct (demotion_counts cfg j g s.1 o n s.2 Hlive)
          as [Hl [-> | [-> | [-> | ->]]]]; (split; [exact Hl|]);
          cbn [inc_xarray_stores_failed inc_demotions_short_lived
               inc_demotions_long_lived ppt_stats_promotions_allowed
               ppt_stats_promotions_throttled ppt_stats_state_exceptions];
          lia.
      - split; [apply shrink_keeps_live; exact Hlive | lia]. }
    destruct Hstep as (Hl' & Ha' & Ht' & He' & Hc').
    destruct (IH (ppt_op_step cfg s op) Hen Hl' Ha' Ht' He')
      as (Ha2 & Ht2 & He2 & Hc2); [lia|].
    repeat split; try assumption. lia.
Qed.

(** X14: every throttle check is counted once.  On an enabled engine with
    a live store, over any sequence of throttle checks, recorded
    promotions, recorded demotions and shrinker scans, "promotions
    allowed", "promotions throttled" and "state inconsistency" together
    go up by exactly the number of checks made, and the snapshot of
    [ppt_get_stats] shows the same three values. *)
Theorem checks_are_counted_once (cfg : ppt_config) (ops : list ppt_op)
    (mm : mm_struct) (st : ppt_stats) :
  ppt_enabled cfg = true ->
  is_Some (ppt_xarray mm) ->
  0 <= ppt_stats_promotions_allowed st ->
  0 <= ppt_stats_promotions_throttled st ->
  0 <= ppt_stats_state_exceptions st ->
  checks_counted st + count_ops op_is_check ops < S64_MAX ->
  let s := ppt_ops_run cfg ops (mm, st) in
  checks_counted s.2 = checks_counted st + count_ops op_is_check ops /\
  ppt_stats_promotions_allowed (ppt_get_stats s.2)
    = ppt_stats_promotions_allowed s.2 /\
  ppt_stats_promotions_throttled (ppt_get_stats s.2)
    = ppt_stats_promotions_throttled s.2 /\
  ppt_stats_state_exceptions (ppt_get_stats s.2)
    = ppt_stats_state_exceptions s.2.
Proof.
  intros Hen Hlive Ha Ht He Hb s.
  destruct (ops_run_checks cfg ops (mm, st) Hen Hlive Ha Ht He Hb)
    as (Ha' & Ht' & He' & Hc').
  fold s in Ha', Ht', He', Hc'.
  split; [exact Hc'|].
  unfold checks_counted in Hc', Hb. cbn [snd] in Hc'.
  pose proof (count_ops_nonneg op_is_check ops) as Hnn.
  unfold S64_MAX in Hb.
  cbn [ppt_get_stats ppt_stats_promotions_allowed
       ppt_stats_promotions_throttled ppt_stats_state_exceptions].
  repeat split; apply ulong_small; lia.
Qed.

(** ** The settings surface *)

Lemma sysfs_store_step_bounds (cfg : ppt_config) (w : sysfs_store) :
  config_in_bounds cfg -> config_in_bounds (sysfs_store_step cfg w).1.
Proof.
  intros Hb.
  assert (Hor : forall a b : bool, a || b = false -> a = false /\ b = false).
  { intros [|] [|]; cbn; intros H; split; congruence. }
  destruct w as [[val|ret] count | [val|ret] count | [val|ret] count
                 | [val|ret] count];
    cbn [sysfs_store_step enabled_store promotion_throttle_duration_store
         promotion_lifetime_expiration_store max_entries_per_mm_store];
    try exact Hb;
    match goal with |- context [if ?c then _ else _] =>
      destruct c eqn:Hc end;
    try exact Hb;
    apply Hor in Hc as [H1 H2];
    apply Z.ltb_ge in H1; apply Z.ltb_ge in H2;
    destruct Hb as (Hd & Hl & Hm);
    unfold config_in_bounds;
    cbn [fst set_enabled set_promotion_throttle_duration
         set_promotion_lifetime_expiration set_max_entries_per_mm
         ppt_promotion_throttle_duration ppt_promotion_lifetime_expiration
         ppt_max_entries_per_mm];
    lia.
Qed.

Lemma sysfs_stores_run_bounds (ws : list sysfs_store) :
  forall cfg, config_in_bounds cfg -> config_in_bounds (sysfs_stores_run ws cfg).
Proof.
  induction ws as [|w ws IH]; intros cfg Hb.
  - exact Hb.
  - cbn [sysfs_stores_run fold_left]. apply IH.
    apply sysfs_store_step_bounds. exact Hb.
Qed.

(** X15: the tunables never leave their bounds.  Starting from the values
    mm/ppt.c initialises them to, after any sequence of writes to the four
    attributes, with any buffer contents, both durations are between 1 and
    600000 ms and the maximum is between 1000 and 10000000 entries. *)
Theorem sysfs_keeps_tunables_in_bounds (ws : list sysfs_store) :
  config_in_bounds (sysfs_stores_run ws ppt_config_boot).
Proof.
  apply sysfs_stores_run_bounds.
  unfold config_in_bounds, ppt_config_boot.
  cbn [ppt_promotion_throttle_duration ppt_promotion_lifetime_expiration
       ppt_max_entries_per_mm]. lia.
Qed.

Lemma shrink_loop_ignores_enabled (cfg : ppt_config) (b : bool)
    (current_jiffies nr_to_scan : Z) (entries : list (Z * Z)) :
  forall (xa : xarray) (count freed : Z),
  shrink_loop (set_enabled cfg b) current_jiffies nr_to_scan entries xa count
    freed
  = shrink_loop cfg current_jiffies nr_to_scan entries xa count freed.
Proof.
  induction entries as [|[index entry] rest IH]; intros xa count freed.
  - reflexivity.
  - cbn [shrink_loop]. cbv zeta.
    cbn [set_enabled ppt_promotion_lifetime_expiration
         ppt_promotion_throttle_duration].
    rewrite !IH. reflexivity.
Qed.

Lemma shrink_ignores_enabled (cfg : ppt_config) (b : bool)
    (jiffies nr_to_scan : Z) (mm : mm_struct) :
  ppt_shrink_mm_xarray (set_enabled cfg b) jiffies mm nr_to_scan
  = ppt_shrink_mm_xarray cfg jiffies mm nr_to_scan.
Proof.
  unfold ppt_shrink_mm_xarray. cbv zeta.
  destruct (ppt_xarray mm) as [xa|]; [|reflexivity].
  rewrite shrink_loop_ignores_enabled. reflexivity.
Qed.

Lemma shrinker_scan_loop_ignores_enabled (cfg : ppt_config) (b : bool)
    (jiffies to_scan : Z) (mms : list mm_struct) :
  forall freed : Z,
  shrinker_scan_loop (set_enabled cfg b) jiffies to_scan mms freed
  = shrinker_scan_loop cfg jiffies to_scan mms freed.
Proof.
  induction mms as [|mm mms IH]; intros freed.
  - reflexivity.
  - cbn [shrinker_scan_loop]. rewrite shrink_ignores_enabled.
    destruct (to_scan <=? freed); [reflexivity|].
    destruct (ppt_shrink_mm_xarray cfg jiffies mm (ulong (to_scan - freed)))
      as [mm' n].
    rewrite IH. reflexivity.
Qed.

(** X16: switching the engine off stops the three entry points and
    nothing else.  After writing 0 to [enabled] the throttle check returns
    false and the check and the two recording calls leave the store, the
    entry count, the statistics and the flags alone; the shrinker is not
    gated: [ppt_shrink_mm_xarray] and [ppt_shrinker_scan] return what they
    return, and leave the stores they leave, under the configuration
    before the write, so expired records are still freed while the engine
    is off.  Writing 1 afterwards gives back an enabled configuration
    exactly. *)
Theorem disable_gates_entry_points_only (cfg : ppt_config)
    (count jiffies jiffies_evict nr_to_scan : Z) (gfp_ok : bool)
    (mm : mm_struct) (ppt_mm_list : list mm_struct)
    (pfn old_pfn new_pfn : Z) (st : ppt_stats) (out_flags : Z) :
  let off := (enabled_store cfg (Parsed 0) count).1 in
  (ppt_should_throttle_promotion off jiffies mm pfn st out_flags
     = (false, mm, st, out_flags) /\
   ppt_track_promotion off jiffies jiffies_evict gfp_ok mm old_pfn new_pfn st
     = (mm, st) /\
   ppt_track_demotion off jiffies gfp_ok mm old_pfn new_pfn st = (mm, st)) /\
  (ppt_shrink_mm_xarray off jiffies mm nr_to_scan
     = ppt_shrink_mm_xarray cfg jiffies mm nr_to_scan /\
   ppt_shrinker_scan off jiffies ppt_mm_list nr_to_scan
     = ppt_shrinker_scan cfg jiffies ppt_mm_list nr_to_scan) /\
  (ppt_enabled cfg = true -> (enabled_store off (Parsed 1) count).1 = cfg).
Proof.
  intros off.
  assert (Hoff : off = set_enabled cfg false) by reflexivity.
  split; [|split].
  - rewrite Hoff. repeat split.
  - rewrite Hoff. split.
    + apply shrink_ignores_enabled.
    + unfold ppt_shrinker_scan. cbv zeta.
      apply shrinker_scan_loop_ignores_enabled.
  - intros Hen. rewrite Hoff.
    destruct cfg as [d l m e]. cbn [ppt_enabled] in Hen. subst e.
    reflexivity.
Qed.

(** ** The claims on the capacity bound and on the elapsed time *)




(** C8: every elapsed-time computation is the wrap-around difference
    modulo 2^22.  The value computed from the clock sample [jiffies] and a
    stored record lies in [0, 2^22) and equals [jiffies - stored] modulo
    2^22, and for a record written at clock [T] (also after the round trip
    through the XArray value entry) it is the tick distance [jiffies - T]
    modulo 2^22, whatever the two clock values are.  All four sites decide
    by it: the throttle check and the demotion compare exactly this value
    with their threshold, and each visit of the two eviction scans erases
    the entry exactly when this value has reached the entry's threshold;
    the two scan functions hand their loops the masked sample. *)
Theorem C8_elapsed_is_wrapped_difference (cfg : ppt_config)
    (jiffies value T p : Z) :
  let diff :=
    ppt_diff (Z.land jiffies PPT_JIFFIES_MASK) (PPT_GET_JIFFIES value) in
  let record := PPT_MAKE_VALUE (Z.land T PPT_JIFFIES_MASK) p in
  let elapsed (v : Z) := (jiffies - PPT_GET_JIFFIES v) mod 2 ^ 22 in
  let threshold (entry : Z) :=
    if PPT_GET_PINGPONG (xa_to_value entry) =? 0
    then msecs_to_jiffies (ppt_promotion_lifetime_expiration cfg)
    else msecs_to_jiffies (ppt_promotion_throttle_duration cfg) in
  let expired (entry : Z) :=
    xa_is_value entry && (threshold entry <=? elapsed (xa_to_value entry)) in
  ((0 <= diff < 2 ^ 22) /\
   diff = elapsed value /\
   elapsed record = (jiffies - T) mod 2 ^ 22 /\
   elapsed (xa_to_value (xa_mk_value record)) = (jiffies - T) mod 2 ^ 22) /\
  (forall (mm : mm_struct) (xa : xarray) (pfn : Z) (st : ppt_stats)
          (out_flags : Z),
     ppt_enabled cfg = true ->
     ppt_xarray mm = Some xa ->
     0 <= value < 2 ^ 63 ->
     xa !! pfn = Some (xa_mk_value value) ->
     ppt_should_throttle_promotion cfg jiffies mm pfn st out_flags =
       if PPT_GET_PINGPONG value =? 0 then
         (false, mk_mm (delete pfn xa) (atomic_dec (ppt_entry_count mm)),
          inc_state_exceptions st, out_flags)
       else if elapsed value
               <? msecs_to_jiffies (ppt_promotion_throttle_duration cfg) then
         (true, mm, inc_promotions_throttled st,
          Z.lor out_flags TNF_THROTTLED)
       else
         (false, mk_mm (delete pfn xa) (atomic_dec (ppt_entry_count mm)),
          inc_promotions_allowed st, out_flags)) /\
  (forall (gfp_ok : bool) (mm : mm_struct) (xa : xarray)
          (old_pfn new_pfn : Z) (st : ppt_stats),
     ppt_enabled cfg = true ->
     ppt_xarray mm = Some xa ->
     0 <= value < 2 ^ 63 ->
     xa !! old_pfn = Some (xa_mk_value value) ->
     ppt_track_demotion cfg jiffies gfp_ok mm old_pfn new_pfn st =
       if elapsed value
          <? msecs_to_jiffies (ppt_promotion_lifetime_expiration cfg) then
         if gfp_ok then
           (mk_mm (<[new_pfn := xa_mk_value
                       (PPT_MAKE_VALUE (Z.land jiffies PPT_JIFFIES_MASK) 1)]>
                     (delete old_pfn xa))
                  (ppt_entry_count mm),
            inc_demotions_short_lived st)
         else
           (mk_mm (delete old_pfn xa) (atomic_dec (ppt_entry_count mm)),
            inc_xarray_stores_failed st)
       else
         (mk_mm (delete old_pfn xa) (atomic_dec (ppt_entry_count mm)),
          inc_demotions_long_lived st)) /\
  (forall (index entry : Z) (rest : list (Z * Z)) (xa : xarray) (count : Z),
     evict_loop cfg (Z.land jiffies PPT_JIFFIES_MASK) ((index, entry) :: rest)
       xa count =
     if expired entry then (delete index xa, atomic_dec count)
     else evict_loop cfg (Z.land jiffies PPT_JIFFIES_MASK) rest xa count) /\
  (forall (nr_to_scan index entry : Z) (rest : list (Z * Z)) (xa : xarray)
          (count freed : Z),
     shrink_loop cfg (Z.land jiffies PPT_JIFFIES_MASK) nr_to_scan
       ((index, entry) :: rest) xa count freed =
     if nr_to_scan <=? freed then (xa, count, freed)
     else if expired entry
     then shrink_loop cfg (Z.land jiffies PPT_JIFFIES_MASK) nr_to_scan rest
            (delete index xa) (atomic_dec count) (ulong (freed + 1))
     else shrink_loop cfg (Z.land jiffies PPT_JIFFIES_MASK) nr_to_scan rest
            xa count freed) /\
  (forall (mm : mm_struct) (xa : xarray) (nr_to_scan : Z),
     ppt_xarray mm = Some xa ->
     ppt_evict_expired_entry cfg jiffies mm =
       (let r := evict_loop cfg (Z.land jiffies PPT_JIFFIES_MASK)
                   (xa_for_each xa) xa (ppt_entry_count mm) in
        mk_mm r.1 r.2) /\
     ppt_shrink_mm_xarray cfg jiffies mm nr_to_scan =
       (let r := shrink_loop cfg (Z.land jiffies PPT_JIFFIES_MASK) nr_to_scan
                   (xa_for_each xa) xa (ppt_entry_count mm) 0 in
        (mk_mm r.1.1 r.1.2, r.2))).
Proof.
  intros diff record elapsed threshold expired.
  assert (Hd : forall s, ppt_diff (Z.land jiffies PPT_JIFFIES_MASK) s
                         = (jiffies - s) mod 2 ^ 22).
  { intros s. apply ppt_diff_masked. }
  assert (Hr : PPT_GET_JIFFIES record = T mod 2 ^ 22).
  { unfold record. rewrite get_jiffies_make_value, land_mask_mod.
    apply Z.mod_mod. lia. }
  assert (Hrr : 0 <= record < 2 ^ 63).
  { pose proof (make_value_range (Z.land T PPT_JIFFIES_MASK) p).
    unfold record. lia. }
  assert (Hexp : forall entry, expired entry = entry_expired cfg jiffies entry).
  { intros entry. rewrite entry_expired_wrapped. reflexivity. }
  split; [|split; [|split; [|split; [|split]]]].
  - split; [|split; [|split]].
    + unfold diff. rewrite Hd. apply Z.mod_pos_bound. lia.
    + apply Hd.
    + unfold elapsed. rewrite Hr. apply Zminus_mod_idemp_r.
    + unfold elapsed. rewrite xa_to_value_mk_value by exact Hrr.
      rewrite Hr. apply Zminus_mod_idemp_r.
  - intros mm xa pfn st out_flags Hen Hxa Hv Hl.
    apply should_throttle_record; assumption.
  - intros gfp_ok mm xa old_pfn new_pfn st Hen Hxa Hv Hl.
    apply track_demotion_record; assumption.
  - intros index entry rest xa count.
    rewrite evict_loop_visit, Hexp. reflexivity.
  - intros nr_to_scan index entry rest xa count freed.
    rewrite shrink_loop_visit, Hexp. reflexivity.
  - intros mm xa nr_to_scan Hxa. split.
    + unfold ppt_evict_expired_entry. rewrite Hxa. cbv zeta.
      destruct (evict_loop cfg (Z.land jiffies PPT_JIFFIES_MASK)
                  (xa_for_each xa) xa (ppt_entry_count mm)) as [xa' c'].
      reflexivity.
    + unfold ppt_shrink_mm_xarray. rewrite Hxa. cbv zeta.
      destruct (shrink_loop cfg (Z.land jiffies PPT_JIFFIES_MASK) nr_to_scan
                  (xa_for_each xa) xa (ppt_entry_count mm) 0)
        as [[xa' c'] f].
      reflexivity.
Qed.

End PPT.

(** ** The theorems at concrete inputs

    The tick rate is 1000 Hz, so that a millisecond is a tick. *)

Lemma C10_encoding_roundtrip_witness :
  PPT_GET_JIFFIES (PPT_MAKE_VALUE (2 ^ 22 + 5) 1) = (2 ^ 22 + 5) mod 2 ^ 22 /\
  PPT_GET_PINGPONG (PPT_MAKE_VALUE (2 ^ 22 + 5) 1) = 1.
Proof.
  apply (C10_encoding_roundtrip (2 ^ 22 + 5) 1). right. reflexivity.
Defined.

Lemma C8_elapsed_is_wrapped_difference_witness :
  let mm := example_mm_with 10 1000 1 in
  let xa : xarray := {[ 10 := xa_mk_value (PPT_MAKE_VALUE 1000 1) ]} in
  (ppt_should_throttle_promotion (msecs_to_jiffies_hz 1000)
     example_TNF_THROTTLED (example_cfg true) (1000 + 2 ^ 22 + 7) mm 10
     example_stats 0).1.1.1 = true /\
  ppt_track_demotion (msecs_to_jiffies_hz 1000) (example_cfg true)
    (1000 + 2 ^ 22 + 7) true mm 10 20 example_stats
  = (mk_mm (<[20 := xa_mk_value
                (PPT_MAKE_VALUE
                   (Z.land (1000 + 2 ^ 22 + 7) PPT_JIFFIES_MASK) 1)]>
              (delete 10 xa)) 1,
     inc_demotions_short_lived example_stats).
Proof.
  intros mm xa.
  pose proof (C8_elapsed_is_wrapped_difference (msecs_to_jiffies_hz 1000)
    example_TNF_THROTTLED (example_cfg true) (1000 + 2 ^ 22 + 7)
    (PPT_MAKE_VALUE 1000 1) 1000 1) as H.
  destruct H as (_ & Hcheck & Hdemote & _).
  split.
  - rewrite (Hcheck mm xa 10 example_stats 0).
    + vm_compute. reflexivity.
    + reflexivity.
    + reflexivity.
    + vm_compute. split; [discriminate | reflexivity].
    + vm_compute. reflexivity.
  - rewrite (Hdemote true mm xa 10 20 example_stats).
    + vm_compute. reflexivity.
    + reflexivity.
    + reflexivity.
    + vm_compute. split; [discriminate | reflexivity].
    + vm_compute. reflexivity.
Defined.

Lemma C4_no_record_not_throttled_witness :
  ppt_should_throttle_promotion (msecs_to_jiffies_hz 1000)
    example_TNF_THROTTLED (example_cfg true) 7000 (example_mm_with 10 0 1) 20
    example_stats 0
  = (false, example_mm_with 10 0 1, stats_delta example_stats 1 0 0 0 0 0, 0).
Proof.
  apply (C4_no_record_not_throttled (msecs_to_jiffies_hz 1000)
           example_TNF_THROTTLED (example_cfg true) 7000
           (example_mm_with 10 0 1)
           {[ 10 := xa_mk_value (PPT_MAKE_VALUE 0 1) ]} 20 example_stats 0).
  - reflexivity.
  - reflexivity.
  - vm_compute. reflexivity.
  - vm_compute. split; [discriminate | reflexivity].
Defined.

(** The claim C5 says the entry count goes up; on a store holding one
    record with the flag clear, counted once, the check leaves the count at
    0, not at 2. *)
Lemma C5_counterexample :
  let mm := example_mm_with 10 0 0 in
  let result :=
    ppt_should_throttle_promotion (msecs_to_jiffies_hz 1000)
      example_TNF_THROTTLED (example_cfg true) 100 mm 10 example_stats 0 in
  PPT_GET_PINGPONG (PPT_MAKE_VALUE 0 0) = 0 /\
  ppt_entry_count mm = 1 /\
  ppt_entry_count result.1.1.2 = 0 /\
  ppt_entry_count result.1.1.2 <> ppt_entry_count mm + 1.
Proof.
  vm_compute. repeat split; discriminate.
Qed.

Lemma C5_inconsistent_record_fails_open_witness :
  ppt_should_throttle_promotion (msecs_to_jiffies_hz 1000)
    example_TNF_THROTTLED (example_cfg true) 100 (example_mm_with 10 0 0) 10
    example_stats 0
  = (false, mk_mm (delete 10 {[ 10 := xa_mk_value (PPT_MAKE_VALUE 0 0) ]}) (1 - 1),
     stats_delta example_stats 0 0 0 0 0 1, 0).
Proof.
  apply (C5_inconsistent_record_fails_open (msecs_to_jiffies_hz 1000)
           example_TNF_THROTTLED (example_cfg true) 100
           (example_mm_with 10 0 0)
           {[ 10 := xa_mk_value (PPT_MAKE_VALUE 0 0) ]} 10
           (PPT_MAKE_VALUE 0 0) example_stats 0).
  - reflexivity.
  - reflexivity.
  - vm_compute. split; [discriminate | reflexivity].
  - vm_compute. reflexivity.
  - vm_compute. reflexivity.
  - vm_compute. split; [reflexivity | discriminate].
  - vm_compute. split; [discriminate | reflexivity].
Defined.

(** The claim C2 says that every call at [T + duration] or later is let
    through; with the record written at [T = 1000] and a threshold of 5000
    ticks, the call at [T + 2^22] is throttled. *)
Lemma C2_counterexample :
  ~ (forall d : Z,
       msecs_to_jiffies_hz 1000
         (ppt_promotion_throttle_duration (example_cfg true)) <= d ->
       (ppt_should_throttle_promotion (msecs_to_jiffies_hz 1000)
          example_TNF_THROTTLED (example_cfg true) (1000 + d)
          (example_mm_with 10 1000 1) 10 example_stats 0).1.1.1 = false).
Proof.
  intros H. specialize (H (2 ^ 22)).
  assert (Hd : msecs_to_jiffies_hz 1000
                 (ppt_promotion_throttle_duration (example_cfg true)) <= 2 ^ 22).
  { vm_compute. discriminate. }
  specialize (H Hd). vm_compute in H. discriminate H.
Qed.

Lemma C2_throttle_window_witness :
  let mm := example_mm_with 10 1000 1 in
  let call (jiffies : Z) :=
    ppt_should_throttle_promotion (msecs_to_jiffies_hz 1000)
      example_TNF_THROTTLED (example_cfg true) jiffies mm 10 example_stats 0 in
  call (1000 + 4999)
    = (true, mm, stats_delta example_stats 0 1 0 0 0 0,
       Z.lor 0 example_TNF_THROTTLED) /\
  (call (1000 + 4999)).1.1.1 = true.
Proof.
  intros mm call.
  pose proof (C2_throttle_window (msecs_to_jiffies_hz 1000)
    example_TNF_THROTTLED (example_cfg true) (1000 + 4999) mm
    {[ 10 := xa_mk_value (PPT_MAKE_VALUE 1000 1) ]} 10
    (PPT_MAKE_VALUE 1000 1) example_stats 0) as H.
  destruct H as (Hlt & _ & Hwin).
  - reflexivity.
  - reflexivity.
  - vm_compute. split; [discriminate | reflexivity].
  - vm_compute. reflexivity.
  - vm_compute. reflexivity.
  - vm_compute. split; [reflexivity | discriminate].
  - vm_compute. split; [discriminate | reflexivity].
  - vm_compute. split; [discriminate | reflexivity].
  - split.
    + apply Hlt. vm_compute. reflexivity.
    + destruct (Hwin 1000 4999) as (_ & Htrue & _).
      * vm_compute. reflexivity.
      * vm_compute. reflexivity.
      * apply Htrue.
        -- vm_compute. discriminate.
        -- vm_compute. reflexivity.
Defined.

Lemma C3_track_demotion_witness :
  let mm := example_mm_with 20 1000 0 in
  ppt_track_demotion (msecs_to_jiffies_hz 1000) (example_cfg true)
    (1000 + 4999) true mm 20 10 example_stats
  = (mk_mm (<[10 := xa_mk_value (PPT_MAKE_VALUE (Z.land (1000 + 4999) PPT_JIFFIES_MASK) 1)]>
              (delete 20 {[ 20 := xa_mk_value (PPT_MAKE_VALUE 1000 0) ]}))
           1,
     stats_delta example_stats 0 0 1 0 0 0).
Proof.
  intros mm.
  pose proof (C3_track_demotion (msecs_to_jiffies_hz 1000) (example_cfg true)
    (1000 + 4999) mm {[ 20 := xa_mk_value (PPT_MAKE_VALUE 1000 0) ]} 20 10
    example_stats) as H.
  destruct H as (Hrec & _).
  - reflexivity.
  - reflexivity.
  - vm_compute. split; [reflexivity | discriminate].
  - vm_compute. repeat split; discriminate.
  - destruct (Hrec (PPT_MAKE_VALUE 1000 0)) as (Hshort & _).
    + vm_compute. split; [discriminate | reflexivity].
    + vm_compute. reflexivity.
    + apply Hshort. vm_compute. reflexivity.
Defined.

Lemma C7_disabled_is_noop_witness :
  ppt_should_throttle_promotion (msecs_to_jiffies_hz 1000)
    example_TNF_THROTTLED (example_cfg false) 1000 (example_mm_with 10 0 1) 10
    example_stats 0
  = (false, example_mm_with 10 0 1, example_stats, 0) /\
  sys_should_throttle_promotion (msecs_to_jiffies_hz 1000)
    example_TNF_THROTTLED (example_cfg false) 1000 example_sys 1 10 0
  = (false, example_sys, 0) /\
  sys_track_promotion (msecs_to_jiffies_hz 1000) (example_cfg false) 1000
    1001 true example_sys 1 10 20 = example_sys /\
  sys_track_demotion (msecs_to_jiffies_hz 1000) (example_cfg false) 1000
    true example_sys 1 10 20 = example_sys.
Proof.
  pose proof (C7_disabled_is_noop (msecs_to_jiffies_hz 1000)
    example_TNF_THROTTLED (example_cfg false) 1000 1001 true example_sys
    (example_mm_with 10 0 1) 1 10 10 20 example_stats 0) as H.
  destruct H as (H1 & _ & _ & H4 & H5 & H6).
  - reflexivity.
  - repeat split; assumption.
Defined.

(** C1, the code at a failing input: two promotions on a fresh owner, the
    second one moving the page the first one recorded.  The erase of the
    record at [old_pfn] takes nothing off the counter, so the counter reads
    2 while the store holds 1 record. *)
Lemma C1_promotion_erase_keeps_count :
  let s1 :=
    ppt_track_promotion (msecs_to_jiffies_hz 1000) (example_cfg true) 0 0
      true example_mm 1 10 example_stats in
  let s2 :=
    ppt_track_promotion (msecs_to_jiffies_hz 1000) (example_cfg true) 0 0
      true s1.1 10 20 s1.2 in
  (ppt_entry_count s1.1 = 1 /\ mm_records s1.1 = 1) /\
  (ppt_entry_count s2.1 = 2 /\ mm_records s2.1 = 1) /\
  ppt_xarray s2.1 = Some {[ 20 := xa_mk_value (PPT_MAKE_VALUE 0 0) ]}.
Proof.
  vm_compute. repeat split; reflexivity.
Qed.



(** ** The further properties at concrete inputs *)

Lemma promotion_records_fast_tier_witness :
  ppt_track_promotion (msecs_to_jiffies_hz 1000) (example_cfg true) 7000 7003
    true (example_mm_with 10 0 1) 10 20 example_stats
  = (mk_mm (<[20 := xa_mk_value
                (PPT_MAKE_VALUE (Z.land 7000 PPT_JIFFIES_MASK) 0)]>
              (delete 10 {[ 10 := xa_mk_value (PPT_MAKE_VALUE 0 1) ]}))
           (1 + 1),
     example_stats) /\
  ppt_track_promotion (msecs_to_jiffies_hz 1000) (example_cfg true) 4998 4999
    true (mk_mm {[ 10 := xa_mk_value (PPT_MAKE_VALUE 0 0) ]} 1000) 1 20
    example_stats
  = (mk_mm (<[20 := xa_mk_value
                (PPT_MAKE_VALUE (Z.land 4998 PPT_JIFFIES_MASK) 0)]>
              (delete 1 {[ 10 := xa_mk_value (PPT_MAKE_VALUE 0 0) ]}))
           (1000 + 1),
     example_stats).
Proof.
  split.
  - pose proof (promotion_records_fast_tier (msecs_to_jiffies_hz 1000)
      (example_cfg true) 7000 7003 (example_mm_with 10 0 1)
      {[ 10 := xa_mk_value (PPT_MAKE_VALUE 0 1) ]} 10 20 example_stats) as H.
    destruct H as (H1 & _).
    + reflexivity.
    + reflexivity.
    + vm_compute. split; [discriminate | reflexivity].
    + vm_compute. split; [discriminate | reflexivity].
    + left. vm_compute. reflexivity.
    + exact H1.
  - pose proof (promotion_records_fast_tier (msecs_to_jiffies_hz 1000)
      (example_cfg true) 4998 4999
      (mk_mm {[ 10 := xa_mk_value (PPT_MAKE_VALUE 0 0) ]} 1000)
      {[ 10 := xa_mk_value (PPT_MAKE_VALUE 0 0) ]} 1 20 example_stats) as H.
    destruct H as (H1 & _).
    + reflexivity.
    + reflexivity.
    + vm_compute. split; [discriminate | reflexivity].
    + vm_compute. split; [discriminate | reflexivity].
    + right. intros k e Hl. apply lookup_singleton_Some in Hl as [_ <-].
      vm_compute. reflexivity.
    + exact H1.
Defined.

Lemma null_store_is_inert_witness :
  let dead := ppt_mm_destroy (example_mm_with 10 0 1) in
  ppt_should_throttle_promotion (msecs_to_jiffies_hz 1000)
    example_TNF_THROTTLED (example_cfg true) 7000 dead 10 example_stats 0
    = (false, dead, example_stats, 0) /\
  ppt_track_promotion (msecs_to_jiffies_hz 1000) (example_cfg true) 7000
    7001 true dead 10 20 example_stats = (dead, example_stats) /\
  ppt_track_demotion (msecs_to_jiffies_hz 1000) (example_cfg true) 7000
    true dead 10 20 example_stats = (dead, example_stats) /\
  ppt_evict_expired_entry (msecs_to_jiffies_hz 1000) (example_cfg true) 7000
    dead = dead /\
  ppt_shrink_mm_xarray (msecs_to_jiffies_hz 1000) (example_cfg true) 7000
    dead 5 = (dead, 0) /\
  ppt_mm_entry_count dead = 0 /\
  ppt_mm_destroy dead = dead.
Proof.
  intros dead.
  apply (null_store_is_inert (msecs_to_jiffies_hz 1000)
           example_TNF_THROTTLED (example_cfg true) 7000 7001 true
           (example_mm_with 10 0 1) dead 10 10 20 5 example_stats 0).
  left. reflexivity.
Defined.

Lemma check_flags_report_verdict_witness :
  let mm := example_mm_with 10 1000 1 in
  let r :=
    ppt_should_throttle_promotion (msecs_to_jiffies_hz 1000)
      example_TNF_THROTTLED (example_cfg true) (1000 + 4999) mm 10
      example_stats 0 in
  r.2 = (if r.1.1.1 then Z.lor 0 example_TNF_THROTTLED else 0) /\
  r.1.1.2 = mm /\ r.1.2 = inc_promotions_throttled example_stats.
Proof.
  intros mm r.
  destruct (check_flags_report_verdict (msecs_to_jiffies_hz 1000)
              example_TNF_THROTTLED (example_cfg true) (1000 + 4999) mm 10
              example_stats 0) as [Hflags Htrue].
  split; [exact Hflags|].
  destruct Htrue as (_ & _ & Hmm & Hst).
  - vm_compute. reflexivity.
  - split; [exact Hmm | exact Hst].
Defined.

Lemma check_pass_untracks_page_witness :
  let r :=
    ppt_should_throttle_promotion (msecs_to_jiffies_hz 1000)
      example_TNF_THROTTLED (example_cfg true) (1000 + 5000)
      (example_mm_with 10 1000 1) 10 example_stats 0 in
  mm_lookup r.1.1.2 10 =
    if r.1.1.1
    then ({[ 10 := xa_mk_value (PPT_MAKE_VALUE 1000 1) ]} : xarray) !! 10
    else None.
Proof.
  apply (check_pass_untracks_page (msecs_to_jiffies_hz 1000)
           example_TNF_THROTTLED (example_cfg true) (1000 + 5000)
           (example_mm_with 10 1000 1)
           {[ 10 := xa_mk_value (PPT_MAKE_VALUE 1000 1) ]} 10 example_stats 0).
  - reflexivity.
  - reflexivity.
  - intros k e Hl. apply lookup_singleton_Some in Hl as [_ <-].
    exists 1000, 1. split; [right; reflexivity | reflexivity].
Defined.

Lemma other_pages_untouched_witness :
  let mm :=
    mk_mm {[ 10 := xa_mk_value (PPT_MAKE_VALUE 1000 1);
             11 := xa_mk_value (PPT_MAKE_VALUE 1000 0) ]} 2 in
  let full := mk_mm {[ 10 := xa_mk_value (PPT_MAKE_VALUE 0 0) ]} 1000 in
  let after :=
    mm_lookup
      (ppt_track_promotion (msecs_to_jiffies_hz 1000) (example_cfg true)
         4999 5000 true full 1 20 example_stats).1 10 in
  mm_lookup
    (ppt_should_throttle_promotion (msecs_to_jiffies_hz 1000)
       example_TNF_THROTTLED (example_cfg true) 9000 mm 10 example_stats
       0).1.1.2 11
    = mm_lookup mm 11 /\
  mm_lookup
    (ppt_track_demotion (msecs_to_jiffies_hz 1000) (example_cfg true) 9000
       true mm 10 20 example_stats).1 11
    = mm_lookup mm 11 /\
  (after = mm_lookup full 10 \/
   (after = None /\
    exists e, mm_lookup full 10 = Some e /\
      entry_expired (msecs_to_jiffies_hz 1000) (example_cfg true) 5000 e
        = true)).
Proof.
  intros mm full after.
  destruct (other_pages_untouched (msecs_to_jiffies_hz 1000)
              example_TNF_THROTTLED (example_cfg true) 9000 9000 true mm 10
              10 20 example_stats 0 11) as (Hcheck & Hdemote & _).
  destruct (other_pages_untouched (msecs_to_jiffies_hz 1000)
              example_TNF_THROTTLED (example_cfg true) 4999 5000 true full 10
              1 20 example_stats 0 10) as (_ & _ & Hpromote).
  split; [|split].
  - apply Hcheck. discriminate.
  - apply Hdemote; discriminate.
  - apply Hpromote; discriminate.
Defined.

Lemma demotion_then_check_witness :
  let mm := example_mm_with 20 1000 0 in
  let s1 :=
    ppt_track_demotion (msecs_to_jiffies_hz 1000) (example_cfg true) 3000
      true mm 20 10 example_stats in
  (ppt_should_throttle_promotion (msecs_to_jiffies_hz 1000)
     example_TNF_THROTTLED (example_cfg true) (ulong (3000 + 4999)) s1.1 10
     s1.2 0).1.1.1
  = (4999 mod 2 ^ 22
     <? msecs_to_jiffies_hz 1000
          (ppt_promotion_throttle_duration (example_cfg true))).
Proof.
  intros mm s1.
  destruct (demotion_then_check (msecs_to_jiffies_hz 1000)
              example_TNF_THROTTLED (example_cfg true) 3000 4999 mm
              {[ 20 := xa_mk_value (PPT_MAKE_VALUE 1000 0) ]} 20 10
              (PPT_MAKE_VALUE 1000 0) example_stats 0) as (_ & H & _).
  - reflexivity.
  - reflexivity.
  - vm_compute. split; [discriminate | reflexivity].
  - vm_compute. reflexivity.
  - vm_compute. reflexivity.
  - exact H.
Defined.

Lemma promotion_then_demotion_witness :
  let s1 :=
    ppt_track_promotion (msecs_to_jiffies_hz 1000) (example_cfg true) 0 1
      true example_mm 10 20 example_stats in
  let s2 :=
    ppt_track_demotion (msecs_to_jiffies_hz 1000) (example_cfg true)
      (ulong (0 + 50)) true s1.1 20 10 s1.2 in
  mm_lookup s2.1 20 = None /\
  mm_lookup s2.1 10 =
    Some (xa_mk_value
            (PPT_MAKE_VALUE (Z.land (ulong (0 + 50)) PPT_JIFFIES_MASK) 1)).
Proof.
  intros s1 s2.
  destruct (promotion_then_demotion (msecs_to_jiffies_hz 1000)
              (example_cfg true) 0 50 1 true example_mm ∅ 10 20 10
              example_stats) as (Hgone & Hshort & _).
  - reflexivity.
  - reflexivity.
  - split.
    + apply Hgone. discriminate.
    + apply Hshort; [vm_compute; reflexivity | reflexivity].
Defined.

Lemma evict_takes_first_expired_witness :
  let xa : xarray :=
    {[ 10 := xa_mk_value (PPT_MAKE_VALUE 0 0);
       11 := xa_mk_value (PPT_MAKE_VALUE 0 0) ]} in
  let mm := mk_mm xa 2 in
  ((forall k e, xa !! k = Some e ->
      entry_expired (msecs_to_jiffies_hz 1000) (example_cfg true) 9000 e
        = false) /\
   ppt_evict_expired_entry (msecs_to_jiffies_hz 1000) (example_cfg true) 9000
     mm = mk_mm xa (ppt_entry_count mm)) \/
  (exists k e, xa !! k = Some e /\
     entry_expired (msecs_to_jiffies_hz 1000) (example_cfg true) 9000 e
       = true /\
     (forall k' e', xa !! k' = Some e' -> k' < k ->
        entry_expired (msecs_to_jiffies_hz 1000) (example_cfg true) 9000 e'
          = false) /\
     ppt_evict_expired_entry (msecs_to_jiffies_hz 1000) (example_cfg true)
       9000 mm = mk_mm (delete k xa) (ppt_entry_count mm - 1)).
Proof.
  intros xa mm.
  apply (evict_takes_first_expired (msecs_to_jiffies_hz 1000)
           (example_cfg true) 9000 mm xa).
  - reflexivity.
  - vm_compute. split; [reflexivity | discriminate].
Defined.

Lemma shrink_frees_only_expired_witness :
  let xa : xarray :=
    {[ 10 := xa_mk_value (PPT_MAKE_VALUE 0 0);
       11 := xa_mk_value (PPT_MAKE_VALUE 8000 1) ]} in
  let mm := mk_mm xa 2 in
  exists xa' freed,
    ppt_shrink_mm_xarray (msecs_to_jiffies_hz 1000) (example_cfg true) 9000
      mm 5 = (mk_mm xa' (ppt_entry_count mm - freed), freed) /\
    0 <= freed <= 5 /\
    Z.of_nat (size xa') = Z.of_nat (size xa) - freed /\
    (forall k, xa' !! k = xa !! k \/
       (xa' !! k = None /\
        exists e, xa !! k = Some e /\
          entry_expired (msecs_to_jiffies_hz 1000) (example_cfg true) 9000 e
            = true)) /\
    (freed < 5 ->
     forall k e, xa' !! k = Some e ->
       entry_expired (msecs_to_jiffies_hz 1000) (example_cfg true) 9000 e
         = false).
Proof.
  intros xa mm.
  apply (shrink_frees_only_expired (msecs_to_jiffies_hz 1000)
           (example_cfg true) 9000 5 mm xa).
  - reflexivity.
  - vm_compute. split; discriminate.
  - discriminate.
Defined.

Lemma shrinker_scan_accounts_witness :
  let registry := [example_mm_with 10 0 0; example_mm] in
  exists list' freed,
    ppt_shrinker_scan (msecs_to_jiffies_hz 1000) (example_cfg true) 9000
      registry 8 = (list', freed) /\
    0 <= freed <= 8 /\
    length list' = length registry /\
    Forall mm_counted list' /\
    records_total list' = records_total registry - freed /\
    ppt_shrinker_count list' = ppt_shrinker_count registry - freed.
Proof.
  intros registry.
  apply (shrinker_scan_accounts (msecs_to_jiffies_hz 1000) (example_cfg true)
           9000 8 registry).
  - repeat constructor; vm_compute; discriminate.
  - vm_compute. discriminate.
  - vm_compute. split; [discriminate | reflexivity].
Defined.

Lemma shrinker_count_covers_records_witness :
  let registry := [example_mm_with 10 0 0; example_mm] in
  ppt_shrinker_count registry = count_total registry /\
  0 <= records_total registry <= ppt_shrinker_count registry.
Proof.
  intros registry.
  apply (shrinker_count_covers_records registry).
  - repeat constructor; vm_compute; discriminate.
  - vm_compute. discriminate.
Defined.

Lemma ops_keep_store_tracked_witness :
  let ops :=
    [Op_promote 0 1 true 10 20; Op_demote 50 true 20 10; Op_check 100 10;
     Op_shrink 9000 4] in
  let s :=
    ppt_ops_run (msecs_to_jiffies_hz 1000) example_TNF_THROTTLED
      (example_cfg true) ops (ppt_mm_init true example_mm, example_stats) in
  mm_tracked s.1 /\
  0 <= mm_records s.1 <= ppt_entry_count s.1 /\
  ppt_entry_count s.1 <= count_ops op_is_promote ops.
Proof.
  intros ops s.
  apply (ops_keep_store_tracked (msecs_to_jiffies_hz 1000)
           example_TNF_THROTTLED (example_cfg true) ops example_mm
           example_stats).
  vm_compute. discriminate.
Defined.

Lemma checks_are_counted_once_witness :
  let ops :=
    [Op_promote 0 1 true 10 20; Op_demote 50 true 20 10; Op_check 100 10;
     Op_check 9000 10; Op_check 9000 10] in
  let s :=
    ppt_ops_run (msecs_to_jiffies_hz 1000) example_TNF_THROTTLED
      (example_cfg true) ops (example_mm, example_stats) in
  checks_counted s.2 = checks_counted example_stats + count_ops op_is_check ops /\
  ppt_stats_promotions_allowed (ppt_get_stats s.2)
    = ppt_stats_promotions_allowed s.2 /\
  ppt_stats_promotions_throttled (ppt_get_stats s.2)
    = ppt_stats_promotions_throttled s.2 /\
  ppt_stats_state_exceptions (ppt_get_stats s.2)
    = ppt_stats_state_exceptions s.2.
Proof.
  intros ops s.
  apply (checks_are_counted_once (msecs_to_jiffies_hz 1000)
           example_TNF_THROTTLED (example_cfg true) ops example_mm
           example_stats).
  - reflexivity.
  - eexists. reflexivity.
  - vm_compute. discriminate.
  - vm_compute. discriminate.
  - vm_compute. discriminate.
  - vm_compute. reflexivity.
Defined.

Lemma disable_gates_entry_points_only_witness :
  let cfg := example_cfg true in
  let off := (enabled_store cfg (Parsed 0) 2).1 in
  let mm := example_mm_with 10 0 1 in
  ppt_shrink_mm_xarray (msecs_to_jiffies_hz 1000) off 9000 mm 5
    = ppt_shrink_mm_xarray (msecs_to_jiffies_hz 1000) cfg 9000 mm 5 /\
  ppt_shrink_mm_xarray (msecs_to_jiffies_hz 1000) off 9000 mm 5
    = (mk_mm ∅ 0, 1) /\
  (enabled_store off (Parsed 1) 2).1 = cfg.
Proof.
  intros cfg off mm.
  destruct (disable_gates_entry_points_only (msecs_to_jiffies_hz 1000)
              example_TNF_THROTTLED cfg 2 9000 9000 5 true mm [mm] 10 10 20
              example_stats 0) as (_ & (Hshrink & _) & Hon).
  split; [exact Hshrink|]. split.
  - vm_compute. reflexivity.
  - apply Hon. reflexivity.
Defined.

Lemma promotion_then_check_witness :
  let s1 :=
    ppt_track_promotion (msecs_to_jiffies_hz 1000) (example_cfg true) 0 1
      true example_mm 10 20 example_stats in
  let r :=
    ppt_should_throttle_promotion (msecs_to_jiffies_hz 1000)
      example_TNF_THROTTLED (example_cfg true) 100 s1.1 20 s1.2 0 in
  r.1.1.1 = false /\
  mm_lookup r.1.1.2 20 = None /\
  r.1.2 = inc_state_exceptions example_stats /\
  r.2 = 0.
Proof.
  intros s1 r.
  apply (promotion_then_check (msecs_to_jiffies_hz 1000)
           example_TNF_THROTTLED (example_cfg true) 0 1 100 example_mm ∅ 10
           20 example_stats 0).
  - reflexivity.
  - reflexivity.
Defined.
